(** * Startup strategist: the fan-out / synthesize / normalize pipeline

    A shallow embedding of [startup_strategist.py].  The language-model
    providers, the template file on disk and [json.loads] are external
    collaborators; the pipeline itself is the templated prompts, the
    [RunnableParallel] fan-out, the key-mapping lambda, the fence
    stripping and the two [except] clauses of [generate_strategy]. *)

From Stdlib Require Import NArith ZArith String Ascii List Lia DecimalString.
From stdpp Require Import base option list gmap.

Local Open Scope N_scope.
#[local] Set Warnings "-register-all".

(** ** Python strings

    A Python [str] is a sequence of Unicode code points.  Literals of the
    source are written as Rocq strings, which hold their UTF-8 bytes, and
    decoded by [lit]. *)

Module Py.

Abbreviation str := (list N).

Fixpoint utf8_decode (bs : list N) : str :=
  match bs with
  | [] => []
  | b0 :: r0 =>
    if b0 <? 128 then b0 :: utf8_decode r0
    else match r0 with
    | [] => [b0]
    | b1 :: r1 =>
      if b0 <? 224 then ((b0 - 192) * 64 + (b1 - 128)) :: utf8_decode r1
      else match r1 with
      | [] => [b0; b1]
      | b2 :: r2 =>
        if b0 <? 240
        then ((b0 - 224) * 4096 + (b1 - 128) * 64 + (b2 - 128)) :: utf8_decode r2
        else match r2 with
        | [] => [b0; b1; b2]
        | b3 :: r3 =>
          ((b0 - 240) * 262144 + (b1 - 128) * 4096 + (b2 - 128) * 64 + (b3 - 128))
            :: utf8_decode r3
        end
      end
    end
  end.

Definition lit (s : string) : str :=
  utf8_decode (map N_of_ascii (list_ascii_of_string s)).

(** The same, with every apostrophe of [s] read as a double quote: the
    literals of the source that contain double quotes contain no
    apostrophe. *)
Definition qlit (s : string) : str :=
  map (fun c => if c =? 39 then 34 else c) (lit s).

(** [str(n)] for a non-negative integer. *)
Definition str_of_nat (n : nat) : str :=
  lit (NilEmpty.string_of_uint (Nat.to_uint n)).

(** [str.isspace] on one code point: the table of CPython's
    [_PyUnicode_IsWhitespace]. *)
Definition isspace (c : N) : bool :=
  ((9 <=? c) && (c <=? 13)) || ((28 <=? c) && (c <=? 32))
  || (c =? 133) || (c =? 160) || (c =? 5760)
  || ((8192 <=? c) && (c <=? 8202))
  || (c =? 8232) || (c =? 8233) || (c =? 8239) || (c =? 8287) || (c =? 12288).

Fixpoint lstrip (s : str) : str :=
  match s with
  | [] => []
  | c :: r => if isspace c then lstrip r else s
  end.

Definition rstrip (s : str) : str := reverse (lstrip (reverse s)).

(** [s.strip()] *)
Definition strip (s : str) : str := rstrip (lstrip s).

(** [s.startswith(p)] and [s.endswith(p)] *)
Definition startswith (s p : str) : bool := bool_decide (p `prefix_of` s).
Definition endswith (s p : str) : bool := bool_decide (p `suffix_of` s).

(** [s[n:]], [s[:n]] and [s[:-n]] for a literal [n]. *)
Definition slice_from (n : nat) (s : str) : str := drop n s.
Definition slice_to (n : nat) (s : str) : str := take n s.
Definition slice_to_neg (n : nat) (s : str) : str := take (length s - n) s.

End Py.
Import Py.

(** ** Fence stripping (lines 176-181 of [generate_strategy]) *)

Definition fence_open : str := lit "```json".
Definition fence_close : str := lit "```".

Definition strip_open (s : str) : str :=
  if startswith s fence_open then slice_from 7 s else s.

Definition strip_close (s : str) : str :=
  if endswith s fence_close then slice_to_neg 3 s else s.

Definition clean_result (raw_result : str) : str :=
  let cleaned_result := strip raw_result in
  let cleaned_result := strip_open cleaned_result in
  let cleaned_result := strip_close cleaned_result in
  strip cleaned_result.

(** ** Exceptions and results

    Only subclasses of [Exception] are modelled.  An exception is its
    class, as far as the [except] clauses of [generate_strategy] tell
    classes apart, and the text [str(e)]. *)

Inductive exn_class :=
  | JSONDecodeError
  | KeyError
  | UnboundLocalError
  | RecursionError
  | ValueError
  | FileNotFoundError
  | TypeError
  | OtherException.

Record exn := Exn { exn_class_of : exn_class; exn_str : str }.

Definition is_JSONDecodeError (e : exn) : bool :=
  match exn_class_of e with JSONDecodeError => true | _ => false end.

Inductive result (A : Type) :=
  | Ok (a : A)
  | Raise (e : exn).
Arguments Ok {A} a.
Arguments Raise {A} e.

#[global] Instance result_ret : MRet result := fun A a => Ok a.
#[global] Instance result_bind : MBind result := fun A B f m =>
  match m with
  | Ok a => f a
  | Raise e => Raise e
  end.

(** [d[k]] on a dictionary whose keys are identifiers; [str(KeyError(k))]
    is [repr(k)], the key between apostrophes. *)
Definition getitem (d : gmap str str) (k : str) : result str :=
  match d !! k with
  | Some v => Ok v
  | None => Raise (Exn KeyError (lit "'" ++ k ++ lit "'"))
  end.

(** ** JSON documents

    The values [json.loads] builds: [None], [bool], [int], [float], [str],
    [list] and [dict].  A float is kept as the lexeme it was read from; a
    [dict] keeps its keys in insertion order. *)

Inductive JSON :=
  | JNull
  | JBool (b : bool)
  | JInt (z : Z)
  | JFloat (lexeme : str)
  | JString (s : str)
  | JList (l : list JSON)
  | JDict (d : list (str * JSON)).

(** [d[k] = v] on an insertion-ordered dict. *)
Fixpoint dict_setitem (k : str) (v : JSON) (d : list (str * JSON))
  : list (str * JSON) :=
  match d with
  | [] => [(k, v)]
  | (k', v') :: d' =>
    if bool_decide (k = k') then (k, v) :: d' else (k', v') :: dict_setitem k v d'
  end.

Fixpoint dict_get (k : str) (d : list (str * JSON)) : option JSON :=
  match d with
  | [] => None
  | (k', v) :: d' => if bool_decide (k = k') then Some v else dict_get k d'
  end.

Definition dict_contains (k : str) (d : list (str * JSON)) : bool :=
  match dict_get k d with Some _ => true | None => false end.

(** ** A reference decoder

    [generate_strategy] is stated over any decoder; the evaluations on
    concrete texts use this one.  It follows [json.decoder] with default
    arguments: [scan_once], [JSONArray], [JSONObject], [scanstring] in
    strict mode and the number pattern, with the positions of the error
    messages computed as [JSONDecodeError] does.  Running out of [fuel]
    stands for the interpreter's recursion limit. *)

Module Decoder.

Definition is_ws (c : N) : bool :=
  (c =? 32) || (c =? 9) || (c =? 10) || (c =? 13).

Fixpoint skip_ws (s : str) : str :=
  match s with
  | [] => []
  | c :: r => if is_ws c then skip_ws r else s
  end.

Definition is_digit (c : N) : bool := (48 <=? c) && (c <=? 57).

Fixpoint span_digits (s : str) : str * str :=
  match s with
  | [] => ([], [])
  | c :: r =>
    if is_digit c then let '(ds, r') := span_digits r in (c :: ds, r')
    else ([], s)
  end.

Definition Z_of_digits (ds : str) : Z :=
  fold_left (λ acc c, 10 * acc + Z.of_N (c - 48))%Z ds 0%Z.

(** The three groups of [NUMBER_RE]: an integer part without leading
    zeros, an optional fraction and an optional exponent. *)
Definition match_int (s : str) : option (bool * str * str) :=
  let '(neg, r) :=
    match s with
    | c :: r => if c =? 45 then (true, r) else (false, s)
    | [] => (false, s)
    end in
  match r with
  | [] => None
  | c :: r' =>
    if c =? 48 then Some (neg, [c], r')
    else if is_digit c then let '(ds, r'') := span_digits r in Some (neg, ds, r'')
    else None
  end.

Definition match_frac (s : str) : str * str :=
  match s with
  | c :: r =>
    if c =? 46 then
      match span_digits r with
      | ([], _) => ([], s)
      | (ds, r') => (c :: ds, r')
      end
    else ([], s)
  | [] => ([], s)
  end.

Definition match_exp (s : str) : str * str :=
  match s with
  | c :: r =>
    if (c =? 101) || (c =? 69) then
      let '(sign, r1) :=
        match r with
        | c' :: r1 => if (c' =? 43) || (c' =? 45) then ([c'], r1) else ([], r)
        | [] => ([], r)
        end in
      match span_digits r1 with
      | ([], _) => ([], s)
      | (ds, r') => (c :: sign ++ ds, r')
      end
    else ([], s)
  | [] => ([], s)
  end.

Definition match_number (s : str) : option (JSON * str) :=
  match match_int s with
  | None => None
  | Some (neg, ds, r) =>
    let '(frac, r1) := match_frac r in
    let '(exp, r2) := match_exp r1 in
    match frac ++ exp with
    | [] => Some (JInt (if neg then - Z_of_digits ds else Z_of_digits ds)%Z, r2)
    | _ => Some (JFloat ((if neg then [45] else []) ++ ds ++ frac ++ exp), r2)
    end
  end.

Definition hex_digit (c : N) : option N :=
  if is_digit c then Some (c - 48)
  else if (97 <=? c) && (c <=? 102) then Some (c - 87)
  else if (65 <=? c) && (c <=? 70) then Some (c - 55)
  else None.

Definition hex4 (a b c d : N) : option N :=
  a ← hex_digit a; b ← hex_digit b; c ← hex_digit c; d ← hex_digit d;
  Some (((a * 16 + b) * 16 + c) * 16 + d).

Definition backslash (c : N) : option N :=
  if (c =? 34) || (c =? 92) || (c =? 47) then Some c
  else if c =? 98 then Some 8
  else if c =? 102 then Some 12
  else if c =? 110 then Some 10
  else if c =? 114 then Some 13
  else if c =? 116 then Some 9
  else None.

Fixpoint until_newline (s : str) : str :=
  match s with
  | [] => []
  | c :: r => if c =? 10 then [] else c :: until_newline r
  end.

Definition recursion_error : exn :=
  Exn RecursionError (lit "maximum recursion depth exceeded").

Section Doc.

Variable doc : str.

(** [JSONDecodeError(msg, doc, pos)], where [pos] is the index at which
    the suffix [rest] of [doc] starts. *)
Definition decode_error (msg : string) (rest : str) : exn :=
  let pos := (length doc - length rest)%nat in
  let before := take pos doc in
  let lineno := S (length (filter (λ c, c = 10) before)) in
  let colno := S (length (until_newline (reverse before))) in
  Exn JSONDecodeError
    (lit msg ++ lit ": line " ++ str_of_nat lineno ++ lit " column "
     ++ str_of_nat colno ++ lit " (char " ++ str_of_nat pos ++ lit ")").

(** [scanstring] in strict mode; [begin] is the suffix at the opening
    quote and [s] the text after it. *)
Fixpoint scanstring (begin s acc : str) : result (str * str) :=
  match s with
  | [] => Raise (decode_error "Unterminated string starting at" begin)
  | c :: r =>
    if c =? 34 then Ok (acc, r)
    else if c <? 32 then Raise (decode_error "Invalid control character at" s)
    else if c =? 92 then
      match r with
      | [] => Raise (decode_error "Unterminated string starting at" begin)
      | esc :: r1 =>
        if esc =? 117 then
          match r1 with
          | h1 :: h2 :: h3 :: h4 :: r2 =>
            match hex4 h1 h2 h3 h4 with
            | None => Raise (decode_error "Invalid \uXXXX escape" r)
            | Some uni =>
              if (55296 <=? uni) && (uni <=? 56319) then
                match r2 with
                | b :: u :: l1 :: l2 :: l3 :: l4 :: r3 =>
                  if (b =? 92) && (u =? 117) then
                    match hex4 l1 l2 l3 l4 with
                    | None =>
                      Raise (decode_error "Invalid \uXXXX escape" (u :: l1 :: l2 :: l3 :: l4 :: r3))
                    | Some uni2 =>
                      if (56320 <=? uni2) && (uni2 <=? 57343)
                      then scanstring begin r3
                             (acc ++ [65536 + (uni - 55296) * 1024 + (uni2 - 56320)])
                      else scanstring begin r2 (acc ++ [uni])
                    end
                  else scanstring begin r2 (acc ++ [uni])
                | _ => scanstring begin r2 (acc ++ [uni])
                end
              else scanstring begin r2 (acc ++ [uni])
            end
          | _ => Raise (decode_error "Invalid \uXXXX escape" r)
          end
        else
          match backslash esc with
          | Some c' => scanstring begin r1 (acc ++ [c'])
          | None => Raise (decode_error "Invalid \escape" s)
          end
      end
    else scanstring begin r (acc ++ [c])
  end.

Definition literal (name : string) (v : JSON) (s : str) : option (JSON * str) :=
  if startswith s (lit name) then Some (v, drop (length (lit name)) s) else None.

Definition scan_atom (s : str) : result (JSON * str) :=
  let tries :=
    [literal "null" JNull s; literal "true" (JBool true) s;
     literal "false" (JBool false) s; match_number s;
     literal "NaN" (JFloat (lit "NaN")) s;
     literal "Infinity" (JFloat (lit "Infinity")) s;
     literal "-Infinity" (JFloat (lit "-Infinity")) s] in
  match omap id tries with
  | found :: _ => Ok found
  | [] => Raise (decode_error "Expecting value" s)
  end.

Fixpoint scan_once (fuel : nat) (s : str) : result (JSON * str) :=
  match fuel with
  | O => Raise recursion_error
  | S fuel =>
    match s with
    | [] => Raise (decode_error "Expecting value" s)
    | c :: r =>
      if c =? 34 then
        '(v, r') ← scanstring s r []; Ok (JString v, r')
      else if c =? 123 then
        match skip_ws r with
        | c1 :: r1 =>
          if c1 =? 125 then Ok (JDict [], r1)
          else members fuel (c1 :: r1) []
        | [] => members fuel [] []
        end
      else if c =? 91 then
        match skip_ws r with
        | c1 :: r1 =>
          if c1 =? 93 then Ok (JList [], r1)
          else elements fuel (c1 :: r1) []
        | [] => elements fuel [] []
        end
      else scan_atom s
    end
  end
with members (fuel : nat) (s : str) (pairs : list (str * JSON))
  : result (JSON * str) :=
  match fuel with
  | O => Raise recursion_error
  | S fuel =>
    match s with
    | c :: r =>
      if c =? 34 then
        '(key, r1) ← scanstring s r [];
        match skip_ws r1 with
        | c2 :: r2 =>
          if c2 =? 58 then
            '(value, r3) ← scan_once fuel (skip_ws r2);
            let pairs := dict_setitem key value pairs in
            match skip_ws r3 with
            | c4 :: r4 =>
              if c4 =? 125 then Ok (JDict pairs, r4)
              else if c4 =? 44 then members fuel (skip_ws r4) pairs
              else Raise (decode_error "Expecting ',' delimiter" (c4 :: r4))
            | [] => Raise (decode_error "Expecting ',' delimiter" [])
            end
          else Raise (decode_error "Expecting ':' delimiter" (c2 :: r2))
        | [] => Raise (decode_error "Expecting ':' delimiter" [])
        end
      else Raise (decode_error "Expecting property name enclosed in double quotes" s)
    | [] => Raise (decode_error "Expecting property name enclosed in double quotes" s)
    end
  end
with elements (fuel : nat) (s : str) (values : list JSON)
  : result (JSON * str) :=
  match fuel with
  | O => Raise recursion_error
  | S fuel =>
    '(value, r) ← scan_once fuel s;
    let values := values ++ [value] in
    match skip_ws r with
    | c1 :: r1 =>
      if c1 =? 93 then Ok (JList values, r1)
      else if c1 =? 44 then elements fuel (skip_ws r1) values
      else Raise (decode_error "Expecting ',' delimiter" (c1 :: r1))
    | [] => Raise (decode_error "Expecting ',' delimiter" [])
    end
  end.

(** [JSONDecoder.decode] *)
Definition decode : result JSON :=
  '(obj, rest) ← scan_once (2 * length doc + 2) (skip_ws doc);
  match skip_ws rest with
  | [] => Ok obj
  | c :: r => Raise (decode_error "Extra data" (c :: r))
  end.

End Doc.

(** [json.loads(s)] for a [str] argument. *)
Definition loads (s : str) : result JSON :=
  if startswith s [65279]
  then Raise (decode_error s "Unexpected UTF-8 BOM (decode using utf-8-sig)" s)
  else decode s.

End Decoder.

(** ** Prompt templates

    [ChatPromptTemplate.from_template] reads an f-string template: a
    doubled brace is a literal brace and [{name}] is a replacement field.
    Only fields that are plain identifiers are modelled, which is all the
    templates of the source use; any other field makes [from_template]
    fail here. *)

Inductive segment :=
  | Text (s : str)
  | Field (name : str).

Definition ChatPromptTemplate := list segment.

Definition is_ident_char (c : N) : bool :=
  ((97 <=? c) && (c <=? 122)) || ((65 <=? c) && (c <=? 90)) || (c =? 95)
  || ((48 <=? c) && (c <=? 57)).

Definition is_identifier (name : str) : bool :=
  match name with
  | [] => false
  | c :: _ => forallb is_ident_char name && negb ((48 <=? c) && (c <=? 57))
  end.

Definition push_text (text : str) (segs : list segment) : list segment :=
  match text with
  | [] => segs
  | _ => Text text :: segs
  end.

(** [text] is the literal text read so far, [field] the name of the
    replacement field being read, if any. *)
Fixpoint parse_format (s text : str) (field : option str)
  : result (list segment) :=
  match s, field with
  | [], None => Ok (push_text text [])
  | [], Some _ =>
    Raise (Exn ValueError (lit "expected '}' before end of string"))
  | c :: r, Some name =>
    if c =? 125 then
      if is_identifier name
      then segs ← parse_format r [] None; Ok (push_text text (Field name :: segs))
      else Raise (Exn ValueError (lit "unsupported replacement field"))
    else parse_format r text (Some (name ++ [c]))
  | c :: r, None =>
    if c =? 123 then
      match r with
      | c' :: r' =>
        if c' =? 123 then parse_format r' (text ++ [c]) None
        else parse_format r text (Some [])
      | [] => Raise (Exn ValueError (lit "Single '{' encountered in format string"))
      end
    else if c =? 125 then
      match r with
      | c' :: r' =>
        if c' =? 125 then parse_format r' (text ++ [c]) None
        else Raise (Exn ValueError (lit "Single '}' encountered in format string"))
      | [] => Raise (Exn ValueError (lit "Single '}' encountered in format string"))
      end
    else parse_format r (text ++ [c]) None
  end.

Definition from_template (template : str) : result ChatPromptTemplate :=
  parse_format template [] None.

Definition input_variables (prompt : ChatPromptTemplate) : list str :=
  omap (λ seg, match seg with Field name => Some name | Text _ => None end) prompt.

(** The formatted text, when every variable is supplied. *)
Definition format_segment (inputs : gmap str str) (seg : segment) : str :=
  match seg with
  | Text s => s
  | Field name => default [] (inputs !! name)
  end.

Definition format (prompt : ChatPromptTemplate) (inputs : gmap str str) : str :=
  concat (format_segment inputs <$> prompt).

Definition problem_template : str := qlit "
You are a ruthless product discovery expert.
Niche: {niche}; Geo: {geo}; Stage: {stage}; Founder: {founder_profile}; Constraints: {constraints}.
List top 5 concrete problems (pain × frequency × willingness to pay) as JSON:
[{{'problem':'...', 'evidence':'(what makes it real)', 'current_workaround':'...', 'severity':1-5}}]
".

Definition market_template : str := qlit "
You are a market mapper. Niche: {niche}; Geo: {geo}.
Produce JSON with keys: segments (3-5), competitors (5-8, direct/indirect/substitute), whitespace (bullets).
".

Definition personas_template : str := qlit "
Design 2-3 buyer/user personas for {niche} in {geo}.
Return JSON: [{{ 'name': '...', 'segment': '...', 'primary_jobs':[], 'top_pains':[], 'must_have_outcomes':[] }}]
".

Definition solutions_template : str := qlit "
Propose 3 candidate solution shapes for {niche} given constraints: {constraints}.
Return JSON: [{{'name':'...', 'v0_scope':['...'], 'tradeoffs':['...']}}]
".

Definition gtm_template : str := qlit "
GTM for {niche} in {geo}. Constraints: {constraints}. Stage: {stage}.
Return JSON: {{'positioning':'...', 'channels':['...'], 'hooks':['...'], 'partnerships':['...']}}
".

Definition tech_template : str := qlit "
Propose an MVP-first architecture for {niche} considering founder skills: {founder_profile}.
Return JSON: {{'architecture':'...', 'stack_choices':['...'], 'ai_components':['...'], 'data_sources':['...'], 'security_compliance':'...', 'scaling_plan':'...', 'build_vs_buy':['...']}}
".

Definition ops_template : str := qlit "
Outline ops & compliance for {niche} in {geo}. Stage: {stage}.
Return JSON: {{'team_plan':[{{'role':'...','seniority':'...','when':'now|later'}}], 'processes':['...'], 'legal_compliance':['...'], 'tooling':['...']}}
".

Definition risks_template : str := qlit "
List top 8 risks for {niche} with likelihood and mitigation. JSON:
[{{'risk':'...', 'likelihood':'low|med|high', 'mitigation':'...', 'owner':'founder|eng|ops|growth'}}]
".


(** ** [load_synthesis_prompt]

    [read_file] is what [open(path, "r", encoding="utf-8")] followed by
    [f.read()] gives at the time of the call. *)

Definition fallback_template : str := lit "
        You are a startup strategist. Synthesize all inputs into a comprehensive strategy.
        Output valid JSON with: assumptions, one_liner, problem_statement, target_personas, market, solution, tech, gtm, ops, metrics, finance, risks_and_mitigations, execution_board.
        ".


Definition load_synthesis_prompt (read_file : str → result str) : result str :=
  match read_file (lit "strategist_master_prompt.txt") with
  | Ok content => Ok content
  | Raise e =>
    match exn_class_of e with
    | FileNotFoundError => Ok fallback_template
    | _ => Raise e
    end
  end.

(** The module-level [synthesis_prompt], built when the module is
    imported. *)
Definition import_synthesis_prompt (read_file : str → result str)
  : result ChatPromptTemplate :=
  template ← load_synthesis_prompt read_file; from_template template.

(** ** The chains *)

Definition problem_prompt := from_template problem_template.
Definition market_prompt := from_template market_template.
Definition personas_prompt := from_template personas_template.
Definition solutions_prompt := from_template solutions_template.
Definition gtm_prompt := from_template gtm_template.
Definition tech_prompt := from_template tech_template.
Definition ops_prompt := from_template ops_template.
Definition risks_prompt := from_template risks_template.

Inductive model := gpt | gem.

(** The eight stages, and the nine places a model is called from. *)
Inductive stage_name :=
  | Problem | Market | Personas | Solutions | Gtm | Tech | Ops | Risks.

Inductive step :=
  | Stage (k : stage_name)
  | Synthesis.

#[global] Instance stage_name_eq_dec : EqDecision stage_name.
Proof. solve_decision. Defined.
#[global] Instance step_eq_dec : EqDecision step.
Proof. solve_decision. Defined.

(** The prompt of each stage. *)
Definition stage_prompt (k : stage_name) : result ChatPromptTemplate :=
  match k with
  | Problem => problem_prompt
  | Market => market_prompt
  | Personas => personas_prompt
  | Solutions => solutions_prompt
  | Gtm => gtm_prompt
  | Tech => tech_prompt
  | Ops => ops_prompt
  | Risks => risks_prompt
  end.

(** The output of [parallel_map], one field per key. *)
Record parallel_output := {
  problem_map : str;
  market_scan : str;
  personas : str;
  solution_shapes : str;
  gtm_ideas : str;
  tech_notes : str;
  ops_notes : str;
  risks_list : str;
  passthrough : gmap str str
}.

(** The frame of one call of [generate_strategy]: what was printed, and
    the local [raw_result], unbound until it is assigned. *)
Record frame := { stdout : list str; raw_result : option str }.

Definition M (A : Type) : Type := frame → frame * result A.

#[global] Instance M_ret : MRet M := λ A a fr, (fr, Ok a).
#[global] Instance M_bind : MBind M := λ A B f m fr,
  match m fr with
  | (fr', Ok a) => f a fr'
  | (fr', Raise e) => (fr', Raise e)
  end.

Definition lift {A} (r : result A) : M A := λ fr, (fr, r).

Definition print (line : str) : M () := λ fr,
  ({| stdout := stdout fr ++ [line]; raw_result := raw_result fr |}, Ok ()).

Definition assign_raw_result (v : str) : M () := λ fr,
  ({| stdout := stdout fr; raw_result := Some v |}, Ok ()).

Definition unbound_raw_result : exn :=
  Exn UnboundLocalError
    (lit "cannot access local variable 'raw_result' where it is not associated with a value").

Definition read_raw_result : M str := λ fr,
  match raw_result fr with
  | Some v => (fr, Ok v)
  | None => (fr, Raise unbound_raw_result)
  end.

(** [try: body / except json.JSONDecodeError as e: h1 / except Exception
    as e: h2]: an exception raised inside a handler is not handled. *)
Definition try_except {A} (body : M A) (h1 h2 : exn → M A) : M A := λ fr,
  match body fr with
  | (fr', Ok a) => (fr', Ok a)
  | (fr', Raise e) => if is_JSONDecodeError e then h1 e fr' else h2 e fr'
  end.

Section Pipeline.

(** The provider called at a step with a prompt: the text it returns or
    the exception it raises. *)
Variable llm : model → step → str → result str.
(** [str(e)] of the [KeyError] a prompt raises when variables are
    missing from its input: LangChain's message lists the missing
    variables, the variables the prompt expects and the keys received
    (here as a set, the input being a map without order). *)
Variable missing_variables : list str → list str → gset str → str.
Variable synthesis_prompt : ChatPromptTemplate.
Variable json_loads : str → result JSON.

Definition invoke (prompt : ChatPromptTemplate) (inputs : gmap str str)
  : result str :=
  match filter (λ v, inputs !! v = None) (input_variables prompt) with
  | [] => Ok (format prompt inputs)
  | missing =>
    Raise (Exn KeyError
             (missing_variables missing (input_variables prompt) (dom inputs)))
  end.

(** [prompt | model | to_str] *)
Definition chain (prompt : result ChatPromptTemplate) (m : model) (k : step)
    (inputs : gmap str str) : result str :=
  p ← prompt; text ← invoke p inputs; llm m k text.

Definition problem_chain := chain problem_prompt gpt (Stage Problem).
Definition market_chain := chain market_prompt gem (Stage Market).
Definition personas_chain := chain personas_prompt gpt (Stage Personas).
Definition solutions_chain := chain solutions_prompt gem (Stage Solutions).
Definition gtm_chain := chain gtm_prompt gpt (Stage Gtm).
Definition tech_chain := chain tech_prompt gpt (Stage Tech).
Definition ops_chain := chain ops_prompt gem (Stage Ops).
Definition risks_chain := chain risks_prompt gpt (Stage Risks).

(** The steps of [parallel_map], by key. *)
Definition stage_chain (k : stage_name) : gmap str str → result str :=
  match k with
  | Problem => problem_chain
  | Market => market_chain
  | Personas => personas_chain
  | Solutions => solutions_chain
  | Gtm => gtm_chain
  | Tech => tech_chain
  | Ops => ops_chain
  | Risks => risks_chain
  end.

(** [RunnableParallel] collects [future.result()] key by key, so the
    exception that surfaces is that of the first failing key. *)
Definition parallel_map (inputs : gmap str str) : result parallel_output :=
  a ← problem_chain inputs;
  b ← market_chain inputs;
  c ← personas_chain inputs;
  d ← solutions_chain inputs;
  e ← gtm_chain inputs;
  f ← tech_chain inputs;
  g ← ops_chain inputs;
  h ← risks_chain inputs;
  Ok {| problem_map := a; market_scan := b; personas := c;
        solution_shapes := d; gtm_ideas := e; tech_notes := f;
        ops_notes := g; risks_list := h; passthrough := inputs |}.

(** The lambda of [final_chain]. *)
Definition map_keys (x : parallel_output) : result (gmap str str) :=
  niche ← getitem (passthrough x) (lit "niche");
  stage ← getitem (passthrough x) (lit "stage");
  geo ← getitem (passthrough x) (lit "geo");
  founder_profile ← getitem (passthrough x) (lit "founder_profile");
  constraints ← getitem (passthrough x) (lit "constraints");
  goals ← getitem (passthrough x) (lit "goals");
  Ok (list_to_map
        [(lit "niche", niche); (lit "stage", stage); (lit "geo", geo);
         (lit "founder_profile", founder_profile);
         (lit "constraints", constraints); (lit "goals", goals);
         (lit "problem_map", problem_map x); (lit "market_scan", market_scan x);
         (lit "personas", personas x);
         (lit "solution_shapes", solution_shapes x);
         (lit "gtm_ideas", gtm_ideas x); (lit "tech_notes", tech_notes x);
         (lit "ops_notes", ops_notes x); (lit "risks_list", risks_list x)]).

(** The input of the synthesis prompt. *)
Definition synthesis_input (inputs : gmap str str) : result (gmap str str) :=
  x ← parallel_map inputs; map_keys x.

Definition final_chain (inputs : gmap str str) : result str :=
  d ← synthesis_input inputs;
  text ← invoke synthesis_prompt d;
  llm gpt Synthesis text.

(** ** [StartupStrategist.generate_strategy] *)

Definition parse_failure (raw : str) : JSON :=
  JDict [(lit "error", JString (lit "Failed to parse JSON response"));
         (lit "raw", JString raw)].

Definition failure (e : exn) : JSON :=
  JDict [(lit "error", JString (exn_str e))].

Definition excerpt (raw : str) : str :=
  if bool_decide (500 < length raw)%nat then slice_to 500 raw ++ lit "..."
  else raw.

Definition generate_strategy (inputs : gmap str str) : M JSON :=
  print (lit "🚀 Starting Startup Strategy Generation...");;
  niche ← lift (getitem inputs (lit "niche"));
  print (lit "📊 Niche: " ++ niche);;
  geo ← lift (getitem inputs (lit "geo"));
  print (lit "🌍 Geography: " ++ geo);;
  stage ← lift (getitem inputs (lit "stage"));
  print (lit "📈 Stage: " ++ stage);;
  try_except
    (r ← lift (final_chain inputs);
     assign_raw_result r;;
     raw ← read_raw_result;
     strategy ← lift (json_loads (clean_result raw));
     print (lit "✅ Strategy generated successfully!");;
     mret strategy)
    (λ e,
     print (lit "❌ JSON parsing error: " ++ exn_str e);;
     raw ← read_raw_result;
     print (lit "Raw result: " ++ excerpt raw);;
     mret (parse_failure raw))
    (λ e,
     print (lit "❌ Error generating strategy: " ++ exn_str e);;
     mret (failure e)).

Definition run (inputs : gmap str str) : frame * result JSON :=
  generate_strategy inputs {| stdout := []; raw_result := None |}.

End Pipeline.

(** ** The module and the template file

    Line 90 runs once, when the module is imported: it reads the template
    file as it is then and binds the module-level [synthesis_prompt], the
    prompt [final_chain] is built with.  [generate_strategy] reads that
    global only; the file can be written or removed between the import and
    a call. *)

(** A process that has imported the module: what opening and reading a
    file gives now, and the global bound by line 90. *)
Record process := {
  files : str → result str;
  synthesis_prompt : ChatPromptTemplate
}.

(** [import startup_strategist], with the files as they are then. *)
Definition import_module (files : str → result str) : result process :=
  prompt ← import_synthesis_prompt files;
  Ok {| files := files; synthesis_prompt := prompt |}.

(** The files change, from outside the program. *)
Definition write_files (files' : str → result str) (p : process) : process :=
  {| files := files'; synthesis_prompt := synthesis_prompt p |}.

(** [StartupStrategist().generate_strategy(inputs)] in the process. *)
Definition call (llm : model → step → str → result str)
    (missing_variables : list str → list str → gset str → str)
    (json_loads : str → result JSON) (inputs : gmap str str) (p : process)
  : frame * result JSON :=
  run llm missing_variables (synthesis_prompt p) json_loads inputs.

(** ** [StartupStrategist.print_strategy]

    Only the guard of lines 199-201 is embedded: either the error line is
    printed for the value under ["error"] and the method returns, or
    control reaches the report of lines 203-270. *)

Inductive printed :=
  | ErrorLine (error : JSON)
  | Report (strategy : JSON).

Fixpoint contains (s sub : str) : bool :=
  startswith s sub || match s with [] => false | _ :: r => contains r sub end.

(** [type(v).__name__] *)
Definition type_name (v : JSON) : str :=
  match v with
  | JNull => lit "NoneType"
  | JBool _ => lit "bool"
  | JInt _ => lit "int"
  | JFloat _ => lit "float"
  | JString _ => lit "str"
  | JList _ => lit "list"
  | JDict _ => lit "dict"
  end.

(** ["error" in strategy]: a key of a dict, an item of a list, a
    substring of a str; the other values are not containers. *)
Definition error_in (strategy : JSON) : result bool :=
  match strategy with
  | JDict d => Ok (dict_contains (lit "error") d)
  | JList l =>
    Ok (existsb (λ v, match v with
                      | JString s => bool_decide (s = lit "error")
                      | _ => false
                      end) l)
  | JString s => Ok (contains s (lit "error"))
  | _ =>
    Raise (Exn TypeError
             (lit "argument of type '" ++ type_name strategy
              ++ lit "' is not iterable"))
  end.

(** [strategy['error']] *)
Definition error_of (strategy : JSON) : result JSON :=
  match strategy with
  | JDict d =>
    match dict_get (lit "error") d with
    | Some v => Ok v
    | None => Raise (Exn KeyError (lit "'error'"))
    end
  | JList _ =>
    Raise (Exn TypeError (lit "list indices must be integers or slices, not str"))
  | JString _ =>
    Raise (Exn TypeError (lit "string indices must be integers, not 'str'"))
  | _ =>
    Raise (Exn TypeError
             (lit "'" ++ type_name strategy ++ lit "' object is not subscriptable"))
  end.

Definition print_strategy (strategy : JSON) : result printed :=
  found ← error_in strategy;
  if found : bool then v ← error_of strategy; Ok (ErrorLine v)
  else Ok (Report strategy).

(** ** The report of [print_strategy] (lines 203-270)

    A printed line is kept as its pieces: the literal text of the
    f-string and the values it shows, each standing for its [str()].
    The operations are those of Python on the values [json.loads]
    builds; [AttributeError] is one of the other subclasses of
    [Exception]. *)

Definition nl : str := [10].

Inductive piece :=
  | Lit (s : str)
  | Shown (v : JSON).

(** What was printed, and the outcome. *)
Definition W (A : Type) : Type := list (list piece) * result A.

#[global] Instance W_ret : MRet W := λ A a, ([], Ok a).
#[global] Instance W_bind : MBind W := λ A B f m,
  match m with
  | (out, Ok a) => let '(out', r) := f a in (out ++ out', r)
  | (out, Raise e) => (out, Raise e)
  end.

Definition emit (line : list piece) : W () := ([line], Ok ()).
Definition check {A} (r : result A) : W A := ([], r).

Fixpoint for_each {A} (items : list A) (body : A → W ()) : W () :=
  match items with
  | [] => mret ()
  | x :: rest => body x;; for_each rest body
  end.

Definition attribute_error (v : JSON) (attr : string) : exn :=
  Exn OtherException
    (lit "'" ++ type_name v ++ lit "' object has no attribute '" ++ lit attr
     ++ lit "'").

(** [v.get(key, default)] *)
Definition py_get (v : JSON) (key : string) (default : JSON) : result JSON :=
  match v with
  | JDict d => Ok (from_option id default (dict_get (lit key) d))
  | _ => Raise (attribute_error v "get")
  end.

(** The items a [for] loop over [v] visits: the items of a list, the
    characters of a str, the keys of a dict. *)
Definition py_iter (v : JSON) : result (list JSON) :=
  match v with
  | JList l => Ok l
  | JString s => Ok ((λ c, JString [c]) <$> s)
  | JDict d => Ok ((λ kv, JString kv.1) <$> d)
  | _ =>
    Raise (Exn TypeError (lit "'" ++ type_name v ++ lit "' object is not iterable"))
  end.

Fixpoint join_items (sep : str) (i : nat) (items : list JSON) : result str :=
  match items with
  | [] => Ok []
  | JString s :: rest =>
    r ← join_items sep (S i) rest;
    Ok (match rest with [] => s | _ => s ++ sep ++ r end)
  | v :: _ =>
    Raise (Exn TypeError
             (lit "sequence item " ++ str_of_nat i ++ lit ": expected str instance, "
              ++ type_name v ++ lit " found"))
  end.

(** [sep.join(v)] *)
Definition py_join (sep : str) (v : JSON) : result str :=
  match py_iter v with
  | Ok items => join_items sep 0 items
  | Raise _ => Raise (Exn TypeError (lit "can only join an iterable"))
  end.

(** [v[:5]], as of CPython 3.12 for a dict. *)
Definition py_first_five (v : JSON) : result JSON :=
  match v with
  | JList l => Ok (JList (take 5 l))
  | JString s => Ok (JString (take 5 s))
  | JDict _ => Raise (Exn KeyError (lit "slice(None, 5, None)"))
  | _ =>
    Raise (Exn TypeError
             (lit "'" ++ type_name v ++ lit "' object is not subscriptable"))
  end.

Section Report.

(** Whether the float read from a lexeme is non-zero. *)
Variable float_truth : str → bool.

(** [bool(v)] *)
Definition py_truth (v : JSON) : bool :=
  match v with
  | JNull => false
  | JBool b => b
  | JInt z => negb (z =? 0)%Z
  | JFloat lexeme => float_truth lexeme
  | JString s => negb (bool_decide (s = []))
  | JList l => negb (bool_decide (l = []))
  | JDict d => negb (bool_decide (d = []))
  end.

Definition na : JSON := JString (lit "N/A").

(** Lines 213-219. *)
Definition print_personas (strategy : JSON) : W () :=
  emit [Lit (nl ++ lit "👥 TARGET PERSONAS:")];;
  personas ← check (py_get strategy "target_personas" (JList []));
  items ← check (py_iter personas);
  for_each (zip (seq 1 (length items)) items) (λ '(i, persona),
    name ← check (py_get persona "name" na);
    segment ← check (py_get persona "segment" na);
    emit [Lit (lit "   "); Lit (str_of_nat i); Lit (lit ". "); Shown name;
          Lit (lit " ("); Shown segment; Lit (lit ")")];;
    jobs ← check (py_get persona "primary_jobs" (JList []));
    jobs ← check (py_join (lit ", ") jobs);
    emit [Lit (lit "      Jobs: "); Lit jobs];;
    pains ← check (py_get persona "top_pains" (JList []));
    pains ← check (py_join (lit ", ") pains);
    emit [Lit (lit "      Pains: "); Lit pains]).

(** A line that shows [d.get(key, 'N/A')]. *)
Definition show_field (label : string) (d : JSON) (key : string) : W () :=
  v ← check (py_get d key na); emit [Lit (lit label); Shown v].

(** The same, for a label that starts on a new line. *)
Definition show_field_nl (label : string) (d : JSON) (key : string) : W () :=
  v ← check (py_get d key na); emit [Lit (nl ++ lit label); Shown v].

(** A line that shows [', '.join(d.get(key, []))]. *)
Definition show_joined (label : string) (d : JSON) (key : string) : W () :=
  v ← check (py_get d key (JList []));
  text ← check (py_join (lit ", ") v);
  emit [Lit (lit label); Lit text].

(** Lines 221-257. *)
Definition print_sections (strategy : JSON) : W () :=
  market ← check (py_get strategy "market" (JDict []));
  emit [Lit (nl ++ lit "📊 MARKET:")];;
  show_field "   Geography: " market "geo";;
  show_field "   TAM Estimate: " market "top_down_TAM_estimate";;
  solution ← check (py_get strategy "solution" (JDict []));
  emit [Lit (nl ++ lit "🛠️  SOLUTION:")];;
  show_joined "   V0 Scope (Weeks 1-4): " solution "v0_scope";;
  show_joined "   V1 Scope (Weeks 5-8): " solution "v1_scope";;
  show_joined "   V2 Scope (Weeks 9-12): " solution "v2_scope";;
  gtm ← check (py_get strategy "gtm" (JDict []));
  emit [Lit (nl ++ lit "🚀 GTM:")];;
  show_field "   Positioning: " gtm "positioning";;
  show_joined "   Channels: " gtm "channels";;
  tech ← check (py_get strategy "tech" (JDict []));
  emit [Lit (nl ++ lit "⚙️  TECH:")];;
  show_field "   Architecture: " tech "architecture";;
  show_joined "   Stack: " tech "stack_choices";;
  finance ← check (py_get strategy "finance" (JDict []));
  emit [Lit (nl ++ lit "💰 FINANCE:")];;
  show_field "   Budget Ceiling: " finance "budget_ceiling";;
  unit_economics ← check (py_get finance "unit_economics" (JDict []));
  show_field "   CAC: " unit_economics "cac";;
  show_field "   LTV: " unit_economics "ltv";;
  metrics ← check (py_get strategy "metrics" (JDict []));
  emit [Lit (nl ++ lit "📈 METRICS:")];;
  show_field "   North Star: " metrics "north_star".

(** Lines 259-263. *)
Definition print_board (strategy : JSON) : W () :=
  emit [Lit (nl ++ lit "📋 EXECUTION BOARD:")];;
  execution_board ← check (py_get strategy "execution_board" (JList []));
  shown ← check (py_first_five execution_board);
  items ← check (py_iter shown);
  for_each items (λ item,
    id_ ← check (py_get item "id" na);
    title ← check (py_get item "title" na);
    due ← check (py_get item "due" na);
    emit [Lit (lit "   "); Shown id_; Lit (lit ": "); Shown title;
          Lit (lit " (Due: "); Shown due; Lit (lit ")")]).

(** Lines 265-270. *)
Definition print_assumptions (strategy : JSON) : W () :=
  assumptions ← check (py_get strategy "assumptions" (JList []));
  if py_truth assumptions then
    emit [Lit (nl ++ lit "⚠️  ASSUMPTIONS:")];;
    items ← check (py_iter assumptions);
    for_each items (λ assumption, emit [Lit (lit "   • "); Shown assumption])
  else mret ().

Definition print_report (strategy : JSON) : W () :=
  emit [Lit (nl ++ repeat 61 80)];;
  emit [Lit (lit "🎯 STARTUP STRATEGY RESULTS")];;
  emit [Lit (repeat 61 80)];;
  show_field_nl "💡 ONE-LINER: " strategy "one_liner";;
  show_field_nl "🎯 PROBLEM: " strategy "problem_statement";;
  print_personas strategy;;
  print_sections strategy;;
  print_board strategy;;
  print_assumptions strategy.

(** The whole of [print_strategy]. *)
Definition print_strategy_lines (strategy : JSON) : W () :=
  found ← check (error_in strategy);
  if found : bool then
    v ← check (error_of strategy); emit [Lit (lit "❌ Error: "); Shown v]
  else print_report strategy.

End Report.

(** ** Requests *)

Record StrategyRequest := {
  niche : str;
  stage : str;
  geo : str;
  founder_profile : str;
  constraints : str;
  goals : str
}.

Definition to_inputs (r : StrategyRequest) : gmap str str :=
  list_to_map
    [(lit "niche", niche r); (lit "stage", stage r); (lit "geo", geo r);
     (lit "founder_profile", founder_profile r);
     (lit "constraints", constraints r); (lit "goals", goals r)].

(** The request of [run_strategy.py]. *)
Definition example_request : StrategyRequest := {|
  niche := lit "AI agents for ecommerce";
  stage := lit "MVP";
  geo := lit "Pakistan, South Asia";
  founder_profile := lit "AI graduate with strong technical skills";
  constraints := lit "budget constraints, need to build MVP efficiently";
  goals := lit "make a proper working MVP that can be launched in the market"
|}.

(** The same request for another geography. *)
Definition global_request : StrategyRequest := {|
  niche := niche example_request;
  stage := stage example_request;
  geo := lit "Global";
  founder_profile := founder_profile example_request;
  constraints := constraints example_request;
  goals := goals example_request
|}.

(** ** Scripted collaborators

    Concrete providers, template file and decoder, to run the pipeline on
    given texts. *)

(** Every provider call is answered by step, whatever the prompt. *)
Definition scripted (answers : step → result str) : model → step → str → result str :=
  λ _ k _, answers k.

(** All eight stages answer ["[]"], the synthesis answers [synthesis]. *)
Definition answering (synthesis : str) : step → result str :=
  λ k, match k with Synthesis => Ok synthesis | _ => Ok (lit "[]") end.

(** The stage [failing] raises [e]; every other call succeeds. *)
Definition failing_at (failing : stage_name) (e : exn) : step → result str :=
  λ k, if bool_decide (k = Stage failing) then Raise e else answering (lit "{}") k.

Definition no_file : str → result str :=
  λ _, Raise (Exn FileNotFoundError
                (lit "[Errno 2] No such file or directory: 'strategist_master_prompt.txt'")).

(** The template file holds [content]; there is no other file. *)
Definition file_with (content : str) : str → result str :=
  λ path,
    if bool_decide (path = lit "strategist_master_prompt.txt") then Ok content
    else Raise (Exn FileNotFoundError
                  (lit "[Errno 2] No such file or directory")).

Definition edited_template : str := lit "Plan for {niche}.".

Definition edited_prompt : ChatPromptTemplate :=
  [Text (lit "Plan for "); Field (lit "niche"); Text (lit ".")].

(** The synthesis provider answers with the prompt it is called on. *)
Definition echoing : model → step → str → result str :=
  λ _ k text,
    match k with
    | Synthesis => Ok text
    | Stage _ => Ok (lit "[]")
    end.

Definition fallback_prompt : ChatPromptTemplate := [Text fallback_template].

(** The call as the specification words it, with the template loaded
    from the file when the call is made. *)
Definition spec_call (llm : model → step → str → result str)
    (mv : list str → list str → gset str → str) (jl : str → result JSON)
    (inputs : gmap str str) (p : process) : result (frame * result JSON) :=
  prompt ← import_synthesis_prompt (files p);
  Ok (run llm mv prompt jl inputs).

(** The text under ['raw'] of a returned parse failure. *)
Definition raw_of (r : result (frame * result JSON)) : option str :=
  match r with
  | Ok (_, Ok (JDict [_; (_, JString raw)])) => Some raw
  | _ => None
  end.

Definition missing_text : list str → list str → gset str → str :=
  λ missing expected received,
    lit "Input to ChatPromptTemplate is missing variables".

(** One call with scripted answers, no template file and the reference
    decoder. *)
Definition scripted_run (answers : step → result str) (inputs : gmap str str)
  : frame * result JSON :=
  run (scripted answers) missing_text fallback_prompt Decoder.loads inputs.

Definition fenced_example : str := qlit "```json
{'a':1}
```".
Definition bare_example : str := qlit "{'a':1}".
Definition embedded_example : str := qlit "prefix ```json {'a':1} ``` suffix".
Definition nested_example : str := qlit "```json
```json
{'a':1}
```
```".

(** A text of 501 characters that is not JSON. *)
Definition long_text : str := repeat 120 501.

(** The ErrorResult of a parse failure as the specification words it:
    the parse error description, and the raw text cut to 500 characters
    with an ellipsis marker when it is longer. *)
Definition spec_parse_failure (e : exn) (raw : str) : JSON :=
  JDict [(lit "error", JString (exn_str e)); (lit "raw", JString (excerpt raw))].

(** The segments before and after the first reference to [name]. *)
Fixpoint before_field (name : str) (prompt : ChatPromptTemplate) : ChatPromptTemplate :=
  match prompt with
  | [] => []
  | Field n :: rest =>
    if bool_decide (n = name) then [] else Field n :: before_field name rest
  | seg :: rest => seg :: before_field name rest
  end.

Fixpoint after_field (name : str) (prompt : ChatPromptTemplate) : ChatPromptTemplate :=
  match prompt with
  | [] => []
  | Field n :: rest =>
    if bool_decide (n = name) then rest else after_field name rest
  | _ :: rest => after_field name rest
  end.

Definition references (prompt : ChatPromptTemplate) (name : str) : bool :=
  bool_decide (name ∈ input_variables prompt).

(** The prompt a stage was built with. *)
Definition parsed_prompt (k : stage_name) : ChatPromptTemplate :=
  match stage_prompt k with
  | Ok prompt => prompt
  | Raise _ => []
  end.

(** The stages whose template names [{geo}]. *)
Definition geo_stages : list stage_name := [Problem; Market; Personas; Gtm; Ops].

(** The keys of a request and of the stage results. *)
Definition request_keys : list str :=
  lit <$> ["niche"; "stage"; "geo"; "founder_profile"; "constraints"; "goals"]%string.

Definition result_key (k : stage_name) : str :=
  match k with
  | Problem => lit "problem_map"
  | Market => lit "market_scan"
  | Personas => lit "personas"
  | Solutions => lit "solution_shapes"
  | Gtm => lit "gtm_ideas"
  | Tech => lit "tech_notes"
  | Ops => lit "ops_notes"
  | Risks => lit "risks_list"
  end.

Definition stage_names : list stage_name :=
  [Problem; Market; Personas; Solutions; Gtm; Tech; Ops; Risks].

(** Blank padding: every character is whitespace for [str.strip]. *)
Definition all_space (ws : str) : Prop := Forall (λ c, isspace c = true) ws.

(** No fence marker at either end. *)
Definition no_outer_fence (t : str) : Prop :=
  ¬ fence_open `prefix_of` t ∧ ¬ fence_close `suffix_of` t.

(** The provider each stage is bound to. *)
Definition stage_model (k : stage_name) : model :=
  match k with
  | Market | Solutions | Ops => gem
  | _ => gpt
  end.

(** The banner and the three lines printed before the [try]. *)
Definition banner : str := lit "🚀 Starting Startup Strategy Generation...".

(** One stage result of a fan-out output replaced. *)
Definition with_result (k : stage_name) (v : str) (x : parallel_output)
  : parallel_output :=
  {| problem_map := if bool_decide (k = Problem) then v else problem_map x;
     market_scan := if bool_decide (k = Market) then v else market_scan x;
     personas := if bool_decide (k = Personas) then v else personas x;
     solution_shapes := if bool_decide (k = Solutions) then v else solution_shapes x;
     gtm_ideas := if bool_decide (k = Gtm) then v else gtm_ideas x;
     tech_notes := if bool_decide (k = Tech) then v else tech_notes x;
     ops_notes := if bool_decide (k = Ops) then v else ops_notes x;
     risks_list := if bool_decide (k = Risks) then v else risks_list x;
     passthrough := passthrough x |}.

(** The text the synthesis provider is called on, from the output of
    the fan-out: the lambda, then the synthesis prompt. *)
Definition synthesis_text
    (mv : list str → list str → gset str → str)
    (sp : ChatPromptTemplate)
    (x : parallel_output) : result str :=
  d ← map_keys x; invoke mv sp d.

(** ** Shapes of a strategy, for the report *)

Definition is_str (v : JSON) : bool :=
  match v with JString _ => true | _ => false end.

Definition is_dict (v : JSON) : bool :=
  match v with JDict _ => true | _ => false end.

(** [d.get(key, default)] on the entries of a dict. *)
Definition field_or (d : list (str * JSON)) (key : string) (default : JSON) : JSON :=
  from_option id default (dict_get (lit key) d).


(** The top-level keys [print_strategy] reads. *)
Definition report_keys : list str :=
  lit <$> ["error"; "one_liner"; "problem_statement"; "target_personas";
           "market"; "solution"; "gtm"; "tech"; "finance"; "metrics";
           "execution_board"; "assumptions"]%string.

Definition is_ok {A} (r : result A) : bool :=
  match r with Ok _ => true | Raise _ => false end.

(** Whether a printing action ends without raising. *)
Definition succeeds {A} (m : W A) : bool := is_ok m.2.

(** What [', '.join] accepts. *)
Definition joinable (v : JSON) : bool :=
  match v with
  | JList l => forallb is_str l
  | JString _ | JDict _ => true
  | _ => false
  end.

Definition persona_ok (p : JSON) : bool :=
  match p with
  | JDict d =>
    joinable (field_or d "primary_jobs" (JList []))
    && joinable (field_or d "top_pains" (JList []))
  | _ => false
  end.

(** A loop whose items must all pass [ok]: the items of a list; a text or
    a dictionary passes only if it is empty, since its characters or keys
    are texts. *)
Definition items_ok (ok : JSON → bool) (v : JSON) : bool :=
  match v with
  | JList l => forallb ok l
  | JString s => bool_decide (s = [])
  | JDict d => bool_decide (d = [])
  | _ => false
  end.

Definition solution_ok (v : JSON) : bool :=
  match v with
  | JDict d =>
    joinable (field_or d "v0_scope" (JList []))
    && joinable (field_or d "v1_scope" (JList []))
    && joinable (field_or d "v2_scope" (JList []))
  | _ => false
  end.

Definition gtm_ok (v : JSON) : bool :=
  match v with
  | JDict d => joinable (field_or d "channels" (JList []))
  | _ => false
  end.

Definition tech_ok (v : JSON) : bool :=
  match v with
  | JDict d => joinable (field_or d "stack_choices" (JList []))
  | _ => false
  end.

Definition finance_ok (v : JSON) : bool :=
  match v with
  | JDict d => is_dict (field_or d "unit_economics" (JDict []))
  | _ => false
  end.

Definition board_ok (v : JSON) : bool :=
  match v with
  | JList l => forallb is_dict (take 5 l)
  | JString s => bool_decide (s = [])
  | _ => false
  end.

Definition assumptions_ok (float_truth : str → bool) (v : JSON) : bool :=
  negb (py_truth float_truth v)
  || match v with JList _ | JString _ | JDict _ => true | _ => false end.

(** The dictionaries for which the report runs to its end. *)
Definition report_shape (float_truth : str → bool) (d : list (str * JSON)) : bool :=
  items_ok persona_ok (field_or d "target_personas" (JList []))
  && is_dict (field_or d "market" (JDict []))
  && solution_ok (field_or d "solution" (JDict []))
  && gtm_ok (field_or d "gtm" (JDict []))
  && tech_ok (field_or d "tech" (JDict []))
  && finance_ok (field_or d "finance" (JDict []))
  && is_dict (field_or d "metrics" (JDict []))
  && board_ok (field_or d "execution_board" (JList []))
  && assumptions_ok float_truth (field_or d "assumptions" (JList [])).

(** * Properties *)

(** ** Stripping whitespace *)

Lemma lstrip_app_space ws s : all_space ws → lstrip (ws ++ s) = lstrip s.
Proof.
  induction 1 as [|c ws Hc _ IH]; [done|].
  cbn [app lstrip]. by rewrite Hc.
Qed.

Lemma lstrip_all_space ws : all_space ws → lstrip ws = [].
Proof.
  intros H. rewrite <- (app_nil_r ws). by rewrite lstrip_app_space.
Qed.

Lemma lstrip_cons_nonspace c s : isspace c = false → lstrip (c :: s) = c :: s.
Proof. intros H. cbn [lstrip]. by rewrite H. Qed.

Lemma lstrip_idem s : lstrip (lstrip s) = lstrip s.
Proof.
  induction s as [|c s IH]; [done|].
  cbn [lstrip]. destruct (isspace c) eqn:Hc; [done|].
  by apply lstrip_cons_nonspace.
Qed.

(** [lstrip] removes a run of whitespace and nothing else. *)
Lemma lstrip_split s : ∃ ws, all_space ws ∧ s = ws ++ lstrip s.
Proof.
  induction s as [|c s (ws & Hws & IH)]; [by exists []; split; [constructor|]|].
  cbn [lstrip]. destruct (isspace c) eqn:Hc.
  - exists (c :: ws). split; [by constructor|]. cbn. by rewrite <- IH.
  - exists []. split; [constructor|done].
Qed.

Lemma all_space_reverse ws : all_space ws → all_space (reverse ws).
Proof. unfold all_space. by rewrite Forall_reverse. Qed.

Lemma rstrip_app_space s ws : all_space ws → rstrip (s ++ ws) = rstrip s.
Proof.
  intros H. unfold rstrip. rewrite reverse_app.
  by rewrite lstrip_app_space by by apply all_space_reverse.
Qed.

Lemma rstrip_snoc_nonspace s c : isspace c = false → rstrip (s ++ [c]) = s ++ [c].
Proof.
  intros H. unfold rstrip. rewrite reverse_app. cbn [reverse app].
  rewrite reverse_singleton. cbn [app].
  rewrite lstrip_cons_nonspace by done.
  by rewrite reverse_cons, reverse_involutive.
Qed.

Lemma rstrip_idem s : rstrip (rstrip s) = rstrip s.
Proof. unfold rstrip. by rewrite reverse_involutive, lstrip_idem. Qed.

Lemma rstrip_split s : ∃ ws, all_space ws ∧ s = rstrip s ++ ws.
Proof.
  destruct (lstrip_split (reverse s)) as (ws & Hws & Hs).
  exists (reverse ws). split; [by apply all_space_reverse|].
  unfold rstrip. rewrite <- reverse_app, <- Hs. by rewrite reverse_involutive.
Qed.

Lemma lstrip_head s c r : lstrip s = c :: r → isspace c = false.
Proof.
  induction s as [|d s IH]; [done|].
  cbn [lstrip]. destruct (isspace d) eqn:Hd; [done|].
  intros [= <- _]. done.
Qed.

(** A non-blank character at the head survives [rstrip]. *)
Lemma rstrip_cons_nonspace c s :
  isspace c = false → ∃ s', rstrip (c :: s) = c :: s'.
Proof.
  intros Hc. unfold rstrip. rewrite reverse_cons.
  destruct (lstrip_split (reverse s)) as (ws & Hws & Hs).
  destruct (lstrip (reverse s)) as [|d r] eqn:Hl.
  - rewrite app_nil_r in Hs. rewrite Hs, lstrip_app_space by done.
    rewrite lstrip_cons_nonspace by done. by exists [].
  - apply lstrip_head in Hl.
    rewrite Hs, <- app_assoc, lstrip_app_space by done.
    cbn [app]. rewrite lstrip_cons_nonspace by done.
    rewrite reverse_cons, reverse_app, reverse_singleton. cbn [app].
    by eexists.
Qed.

Lemma strip_idem s : strip (strip s) = strip s.
Proof.
  unfold strip. destruct (lstrip s) as [|c r] eqn:Hl; [done|].
  apply lstrip_head in Hl.
  destruct (rstrip_cons_nonspace c r Hl) as (s' & Hs').
  rewrite Hs', lstrip_cons_nonspace, <- Hs' by done.
  apply rstrip_idem.
Qed.

(** ** Fence markers *)

Lemma strip_open_fenced t : strip_open (fence_open ++ t) = t.
Proof.
  unfold strip_open, startswith.
  rewrite bool_decide_eq_true_2 by by exists t.
  reflexivity.
Qed.

Lemma strip_open_unfenced t : ¬ fence_open `prefix_of` t → strip_open t = t.
Proof.
  intros H. unfold strip_open, startswith. by rewrite bool_decide_eq_false_2.
Qed.

Lemma strip_close_fenced t : strip_close (t ++ fence_close) = t.
Proof.
  unfold strip_close, endswith, slice_to_neg.
  rewrite bool_decide_eq_true_2 by by exists t.
  rewrite length_app. change (length fence_close) with 3%nat.
  replace (length t + 3 - 3)%nat with (length t) by lia.
  by rewrite take_app_length.
Qed.

Lemma strip_close_unfenced t : ¬ fence_close `suffix_of` t → strip_close t = t.
Proof.
  intros H. unfold strip_close, endswith. by rewrite bool_decide_eq_false_2.
Qed.

Lemma strip_pad ws body ws' :
  all_space ws → all_space ws' → strip (ws ++ body ++ ws') = strip body.
Proof.
  intros Hws Hws'. unfold strip. rewrite lstrip_app_space by done.
  destruct (lstrip_split body) as (w & Hw & Hb).
  destruct (lstrip body) as [|c r] eqn:Hl.
  - rewrite app_nil_r in Hb. subst w.
    rewrite lstrip_all_space; [done|]. by apply Forall_app.
  - apply lstrip_head in Hl.
    rewrite Hb, <- app_assoc, lstrip_app_space by done.
    change ((c :: r) ++ ws') with (c :: (r ++ ws')).
    rewrite lstrip_cons_nonspace by done.
    by rewrite app_comm_cons, rstrip_app_space.
Qed.

Lemma strip_fenced ws t ws' :
  all_space ws → all_space ws' →
  strip (ws ++ (fence_open ++ t ++ fence_close) ++ ws') = fence_open ++ t ++ fence_close.
Proof.
  intros Hws Hws'. unfold strip. rewrite lstrip_app_space by done.
  change fence_open with (96 :: drop 1 fence_open).
  cbn [app]. rewrite lstrip_cons_nonspace by done.
  rewrite !app_comm_cons, rstrip_app_space by done.
  change fence_close with (take 2 fence_close ++ [96]).
  rewrite !app_assoc. by apply rstrip_snoc_nonspace.
Qed.

(** A fenced document cleans to its trimmed body. *)
Lemma clean_result_fenced ws1 ws2 body ws3 ws4 :
  all_space ws1 → all_space ws2 → all_space ws3 → all_space ws4 →
  clean_result (ws1 ++ (fence_open ++ (ws2 ++ body ++ ws3) ++ fence_close) ++ ws4)
  = strip body.
Proof.
  intros H1 H2 H3 H4. unfold clean_result.
  rewrite strip_fenced, strip_open_fenced, strip_close_fenced by done.
  by apply strip_pad.
Qed.

(** ** One call of [generate_strategy] *)

Section Runs.

Context (llm : model → step → str → result str)
  (mv : list str → list str → gset str → str).
Context (sp : ChatPromptTemplate) (jl : str → result JSON).

Lemma getitem_Some (d : gmap str str) k v : d !! k = Some v → getitem d k = Ok v.
Proof. unfold getitem. by intros ->. Qed.

Lemma getitem_None (d : gmap str str) k :
  d !! k = None → getitem d k = Raise (Exn KeyError (lit "'" ++ k ++ lit "'")).
Proof. unfold getitem. by intros ->. Qed.

(** The whole behaviour of a call whose input has the three keys that
    are printed before the [try]. *)
Lemma run_eq (inputs : gmap str str) n g s :
  inputs !! lit "niche" = Some n →
  inputs !! lit "geo" = Some g →
  inputs !! lit "stage" = Some s →
  let head :=
    [lit "🚀 Starting Startup Strategy Generation..."; lit "📊 Niche: " ++ n;
     lit "🌍 Geography: " ++ g; lit "📈 Stage: " ++ s] in
  run llm mv sp jl inputs =
  match final_chain llm mv sp inputs with
  | Raise e =>
    if is_JSONDecodeError e then
      ({| stdout := head ++ [lit "❌ JSON parsing error: " ++ exn_str e];
          raw_result := None |}, Raise unbound_raw_result)
    else
      ({| stdout := head ++ [lit "❌ Error generating strategy: " ++ exn_str e];
          raw_result := None |}, Ok (failure e))
  | Ok raw =>
    match jl (clean_result raw) with
    | Ok v =>
      ({| stdout := head ++ [lit "✅ Strategy generated successfully!"];
          raw_result := Some raw |}, Ok v)
    | Raise e =>
      if is_JSONDecodeError e then
        ({| stdout := head ++ [lit "❌ JSON parsing error: " ++ exn_str e;
                               lit "Raw result: " ++ excerpt raw];
            raw_result := Some raw |}, Ok (parse_failure raw))
      else
        ({| stdout := head ++ [lit "❌ Error generating strategy: " ++ exn_str e];
            raw_result := Some raw |}, Ok (failure e))
    end
  end.
Proof.
  intros Hn Hg Hs head. subst head.
  unfold run, generate_strategy.
  rewrite (getitem_Some _ _ _ Hn), (getitem_Some _ _ _ Hg), (getitem_Some _ _ _ Hs).
  unfold try_except, mbind, M_bind, mret, M_ret, lift, print, assign_raw_result,
    read_raw_result.
  cbn [stdout raw_result app].
  destruct (final_chain llm mv sp inputs) as [raw|e].
  - cbn [stdout raw_result app]. destruct (jl (clean_result raw)) as [v|e]; [done|].
    cbn [stdout raw_result app]. by destruct (is_JSONDecodeError e).
  - by destruct (is_JSONDecodeError e).
Qed.

End Runs.

(** ** Normalisation *)

Lemma strip_open_cases t :
  (∃ t', t = fence_open ++ t' ∧ strip_open t = t')
  ∨ (¬ fence_open `prefix_of` t ∧ strip_open t = t).
Proof.
  destruct (decide (fence_open `prefix_of` t)) as [[t' ->]|H].
  - left. exists t'. by rewrite strip_open_fenced.
  - right. by rewrite strip_open_unfenced.
Qed.

Lemma strip_close_cases t :
  (∃ t', t = t' ++ fence_close ∧ strip_close t = t')
  ∨ (¬ fence_close `suffix_of` t ∧ strip_close t = t).
Proof.
  destruct (decide (fence_close `suffix_of` t)) as [[t' ->]|H].
  - left. exists t'. by rewrite strip_close_fenced.
  - right. by rewrite strip_close_unfenced.
Qed.

(** C1.  The text handed to the decoder is the raw text trimmed, without
    the opener exactly when the trimmed text begins with it, without the
    closer exactly when what is left ends with it, and trimmed again; the
    call returns what the decoder makes of it.  For a fenced document,
    whatever blank padding surrounds the fences and the body, that text is
    the trimmed body, so the call returns the decoding of the body. *)
Theorem C1_normalize_fenced_json
    (llm : model → step → str → result str)
    (mv : list str → list str → gset str → str)
    (sp : ChatPromptTemplate) (jl : str → result JSON)
    (inputs : gmap str str) (n g s raw : str) :
  inputs !! lit "niche" = Some n →
  inputs !! lit "geo" = Some g →
  inputs !! lit "stage" = Some s →
  final_chain llm mv sp inputs = Ok raw →
  (∃ t2 t3,
     (strip raw = fence_open ++ t2
      ∨ (¬ fence_open `prefix_of` strip raw ∧ t2 = strip raw))
     ∧ (t2 = t3 ++ fence_close ∨ (¬ fence_close `suffix_of` t2 ∧ t3 = t2))
     ∧ clean_result raw = strip t3
     ∧ (run llm mv sp jl inputs).2 =
       match jl (strip t3) with
       | Ok v => Ok v
       | Raise e => Ok (if is_JSONDecodeError e then parse_failure raw else failure e)
       end)
  ∧ (∀ ws1 ws2 body ws3 ws4,
       all_space ws1 → all_space ws2 → all_space ws3 → all_space ws4 →
       raw = ws1 ++ (fence_open ++ (ws2 ++ body ++ ws3) ++ fence_close) ++ ws4 →
       clean_result raw = strip body
       ∧ ∀ v, jl (strip body) = Ok v → (run llm mv sp jl inputs).2 = Ok v).
Proof.
  intros Hn Hg Hs Hraw.
  pose proof (run_eq llm mv sp jl inputs n g s Hn Hg Hs) as Hrun.
  cbv zeta in Hrun. rewrite Hraw in Hrun.
  split.
  - exists (strip_open (strip raw)), (strip_close (strip_open (strip raw))).
    split; [|split; [|split]].
    + destruct (strip_open_cases (strip raw)) as [(t' & Ht & ->)|[H ->]]; auto.
    + destruct (strip_close_cases (strip_open (strip raw)))
        as [(t' & Ht & ->)|[H ->]]; auto.
    + reflexivity.
    + rewrite Hrun. change (strip (strip_close (strip_open (strip raw))))
        with (clean_result raw).
      destruct (jl (clean_result raw)) as [v|e]; [done|].
      by destruct (is_JSONDecodeError e).
  - intros ws1 ws2 body ws3 ws4 H1 H2 H3 H4 ->.
    rewrite clean_result_fenced in * by done.
    split; [done|]. intros v Hv. rewrite Hrun, Hv. done.
Qed.

Lemma C1_witness :
  (scripted_run (answering fenced_example) (to_inputs example_request)).2
  = Decoder.loads bare_example.
Proof.
  destruct (C1_normalize_fenced_json (scripted (answering fenced_example))
              missing_text fallback_prompt Decoder.loads
              (to_inputs example_request)
              (niche example_request) (geo example_request)
              (stage example_request) fenced_example)
    as [_ H]; [vm_compute; reflexivity..|].
  destruct (H [] [10] bare_example [10] []) as [_ Hv];
    [repeat constructor..|vm_compute; reflexivity|].
  apply (Hv (JDict [(lit "a", JInt 1)])). vm_compute; reflexivity.
Defined.

(** ** Fence stripping is positional, and idempotent one layer at a time *)

Lemma clean_result_unfenced t :
  no_outer_fence (strip t) → clean_result t = strip t.
Proof.
  intros [Ho Hc]. unfold clean_result.
  rewrite strip_open_unfenced, strip_close_unfenced, strip_idem by
    (try rewrite strip_open_unfenced; done).
  done.
Qed.

(** C4, as the code has it.  The three texts of the specification clean
    as it says: the fenced and the bare document to the same text, the
    text with embedded markers to itself.  Markers that are not at the two
    ends of the trimmed text are left where they are.  Cleaning twice is
    cleaning once whenever the once-cleaned text has no marker left at
    either end. *)
Theorem C4_fence_stripping_positional (t : str) :
  no_outer_fence (clean_result t) →
  clean_result (clean_result t) = clean_result t
  ∧ clean_result fenced_example = bare_example
  ∧ clean_result bare_example = bare_example
  ∧ clean_result embedded_example = embedded_example
  ∧ (∀ u, no_outer_fence (strip u) → clean_result u = strip u).
Proof.
  intros H. split; [|split; [|split; [|split]]].
  - rewrite (clean_result_unfenced (clean_result t)).
    + unfold clean_result. apply strip_idem.
    + unfold clean_result in *. by rewrite strip_idem.
  - vm_compute; reflexivity.
  - vm_compute; reflexivity.
  - vm_compute; reflexivity.
  - apply clean_result_unfenced.
Qed.

Lemma no_outer_fence_dec t :
  bool_decide (fence_open `prefix_of` t) = false →
  bool_decide (fence_close `suffix_of` t) = false →
  no_outer_fence t.
Proof.
  intros Ho%bool_decide_eq_false Hc%bool_decide_eq_false. by split.
Qed.

Lemma C4_witness :
  clean_result (clean_result fenced_example) = clean_result fenced_example.
Proof.
  destruct (C4_fence_stripping_positional fenced_example) as [H _]; [|exact H].
  apply no_outer_fence_dec; vm_compute; reflexivity.
Defined.

(** C4 as stated fails: a doubly fenced text loses one layer at each
    pass, so the second pass still changes it. *)
Lemma C4_counterexample :
  clean_result nested_example = fenced_example
  ∧ clean_result (clean_result nested_example) = bare_example
  ∧ clean_result (clean_result nested_example) ≠ clean_result nested_example.
Proof.
  split; [vm_compute; reflexivity|].
  split; [vm_compute; reflexivity|].
  vm_compute. discriminate.
Qed.

(** ** The fan-out *)

Section FanOut.

Context (llm : model → step → str → result str)
  (mv : list str → list str → gset str → str).
Context (sp : ChatPromptTemplate).

Lemma parallel_map_all_ok (inputs : gmap str str) (res : stage_name → str) :
  (∀ k, stage_chain llm mv k inputs = Ok (res k)) →
  parallel_map llm mv inputs =
  Ok {| problem_map := res Problem; market_scan := res Market;
        personas := res Personas; solution_shapes := res Solutions;
        gtm_ideas := res Gtm; tech_notes := res Tech; ops_notes := res Ops;
        risks_list := res Risks; passthrough := inputs |}.
Proof.
  intros H. unfold parallel_map.
  pose proof (H Problem) as H1. pose proof (H Market) as H2.
  pose proof (H Personas) as H3. pose proof (H Solutions) as H4.
  pose proof (H Gtm) as H5. pose proof (H Tech) as H6.
  pose proof (H Ops) as H7. pose proof (H Risks) as H8.
  cbn [stage_chain] in *.
  rewrite H1, H2, H3, H4, H5, H6, H7, H8. reflexivity.
Qed.

Local Ltac stage_ok H k :=
  let r := fresh "r" in
  let Hr := fresh "Hr" in
  destruct (H k ltac:(discriminate)) as [r Hr];
  cbn [stage_chain] in Hr; rewrite Hr; cbn [mbind result_bind].

(** Fail fast: when one stage fails and the seven others succeed, its
    exception is what the fan-out, and so the whole chain, raises. *)
Lemma parallel_map_single_failure (inputs : gmap str str) k e :
  stage_chain llm mv k inputs = Raise e →
  (∀ k', k' ≠ k → ∃ r, stage_chain llm mv k' inputs = Ok r) →
  parallel_map llm mv inputs = Raise e.
Proof.
  intros Hk Hothers. unfold parallel_map.
  destruct k; cbn [stage_chain] in Hk;
    repeat first
      [ rewrite Hk; reflexivity
      | stage_ok Hothers Problem | stage_ok Hothers Market
      | stage_ok Hothers Personas | stage_ok Hothers Solutions
      | stage_ok Hothers Gtm | stage_ok Hothers Tech
      | stage_ok Hothers Ops | stage_ok Hothers Risks ].
Qed.

Lemma final_chain_single_failure (inputs : gmap str str) k e :
  stage_chain llm mv k inputs = Raise e →
  (∀ k', k' ≠ k → ∃ r, stage_chain llm mv k' inputs = Ok r) →
  final_chain llm mv sp inputs = Raise e.
Proof.
  intros Hk Hothers. unfold final_chain, synthesis_input.
  by rewrite (parallel_map_single_failure inputs k e).
Qed.

End FanOut.

(** ** Outcomes of [generate_strategy] *)

(** C2, as the code has it.  When the decoder rejects the cleaned text,
    the call returns, and what it returns carries the fixed message and
    the whole raw text; the description of the parse error and the
    excerpt of at most 500 characters go to the console only. *)
Theorem C2_parse_failure_keeps_whole_raw
    (llm : model → step → str → result str)
    (mv : list str → list str → gset str → str)
    (sp : ChatPromptTemplate) (jl : str → result JSON)
    (inputs : gmap str str) (n g s raw : str) (e : exn) :
  inputs !! lit "niche" = Some n →
  inputs !! lit "geo" = Some g →
  inputs !! lit "stage" = Some s →
  final_chain llm mv sp inputs = Ok raw →
  jl (clean_result raw) = Raise e →
  is_JSONDecodeError e = true →
  run llm mv sp jl inputs =
    ({| stdout :=
          [lit "🚀 Starting Startup Strategy Generation...";
           lit "📊 Niche: " ++ n; lit "🌍 Geography: " ++ g;
           lit "📈 Stage: " ++ s;
           lit "❌ JSON parsing error: " ++ exn_str e;
           lit "Raw result: " ++ excerpt raw];
        raw_result := Some raw |},
     Ok (JDict [(lit "error", JString (lit "Failed to parse JSON response"));
                (lit "raw", JString raw)]))
  ∧ ((length raw ≤ 500)%nat → excerpt raw = raw)
  ∧ ((500 < length raw)%nat → excerpt raw = take 500 raw ++ lit "...").
Proof.
  intros Hn Hg Hs Hraw Hjl He.
  rewrite (run_eq llm mv sp jl inputs n g s Hn Hg Hs), Hraw, Hjl, He.
  split; [done|]. unfold excerpt, slice_to.
  split; intros H; case_bool_decide; done || lia.
Qed.

Lemma C2_witness :
  (scripted_run (answering long_text) (to_inputs example_request)).2
  = Ok (JDict [(lit "error", JString (lit "Failed to parse JSON response"));
               (lit "raw", JString long_text)]).
Proof.
  destruct (C2_parse_failure_keeps_whole_raw (scripted (answering long_text))
              missing_text fallback_prompt Decoder.loads
              (to_inputs example_request)
              (niche example_request) (geo example_request)
              (stage example_request) long_text
              (Exn JSONDecodeError (lit "Expecting value: line 1 column 1 (char 0)")))
    as [H _]; [vm_compute; reflexivity..|].
  unfold scripted_run. by rewrite H.
Defined.

(** C2 as stated fails: for a rejected text of 501 characters the raw
    field is the whole text, not its first 500 characters and an
    ellipsis, and the error field is the fixed message, not the
    description of the parse error. *)
Lemma C2_counterexample :
  Decoder.loads (clean_result long_text)
  = Raise (Exn JSONDecodeError (lit "Expecting value: line 1 column 1 (char 0)"))
  ∧ (scripted_run (answering long_text) (to_inputs example_request)).2
    = Ok (parse_failure long_text)
  ∧ length long_text = 501%nat
  ∧ length (excerpt long_text) = 503%nat
  ∧ parse_failure long_text
    ≠ spec_parse_failure
        (Exn JSONDecodeError (lit "Expecting value: line 1 column 1 (char 0)"))
        long_text.
Proof.
  split; [vm_compute; reflexivity|].
  split; [vm_compute; reflexivity|].
  split; [vm_compute; reflexivity|].
  split; [vm_compute; reflexivity|].
  intros H. vm_compute in H. discriminate H.
Qed.

(** C3 fails on the code.  The three lines printed before the [try]
    read [inputs['niche']], [inputs['geo']] and [inputs['stage']]: for the
    request of [run_strategy.py] without its ['niche'] the [KeyError]
    leaves [generate_strategy], whatever the collaborators do. *)
Theorem C3_missing_niche_escapes
    (llm : model → step → str → result str)
    (mv : list str → list str → gset str → str)
    (sp : ChatPromptTemplate) (jl : str → result JSON) :
  run llm mv sp jl (delete (lit "niche") (to_inputs example_request)) =
    ({| stdout := [lit "🚀 Starting Startup Strategy Generation..."];
        raw_result := None |},
     Raise (Exn KeyError (lit "'niche'"))).
Proof.
  unfold run, generate_strategy.
  rewrite (getitem_None _ (lit "niche")) by (vm_compute; reflexivity).
  reflexivity.
Qed.

(** The sibling path: a request without ['goals'] fails inside the
    [try], in the lambda of [final_chain], and is recovered. *)
Lemma missing_goals_recovered :
  (scripted_run (answering bare_example)
     (delete (lit "goals") (to_inputs example_request))).2
  = Ok (JDict [(lit "error", JString (lit "'goals'"))]).
Proof. vm_compute; reflexivity. Qed.

Section StageFailure.

Context (llm : model → step → str → result str)
  (mv : list str → list str → gset str → str).
Context (sp : ChatPromptTemplate) (jl : str → result JSON).
Context (inputs : gmap str str) (n g s : str).
Hypothesis Hn : inputs !! lit "niche" = Some n.
Hypothesis Hg : inputs !! lit "geo" = Some g.
Hypothesis Hs : inputs !! lit "stage" = Some s.

(** A stage failure of any class but [JSONDecodeError] is reported as a
    dictionary that holds the text of the error and nothing else. *)
Lemma stage_failure_reported k e :
  stage_chain llm mv k inputs = Raise e →
  (∀ k', k' ≠ k → ∃ r, stage_chain llm mv k' inputs = Ok r) →
  is_JSONDecodeError e = false →
  (run llm mv sp jl inputs).2 = Ok (JDict [(lit "error", JString (exn_str e))]).
Proof.
  intros Hk Hothers He.
  rewrite (run_eq llm mv sp jl inputs n g s Hn Hg Hs).
  by rewrite (final_chain_single_failure llm mv sp inputs k e), He.
Qed.

(** A stage failure of class [JSONDecodeError] is caught by the first
    [except] clause, which reads [raw_result] before it was assigned. *)
Lemma stage_decode_error_unbound k e :
  stage_chain llm mv k inputs = Raise e →
  (∀ k', k' ≠ k → ∃ r, stage_chain llm mv k' inputs = Ok r) →
  is_JSONDecodeError e = true →
  run llm mv sp jl inputs =
    ({| stdout :=
          [lit "🚀 Starting Startup Strategy Generation...";
           lit "📊 Niche: " ++ n; lit "🌍 Geography: " ++ g;
           lit "📈 Stage: " ++ s;
           lit "❌ JSON parsing error: " ++ exn_str e];
        raw_result := None |},
     Raise unbound_raw_result).
Proof.
  intros Hk Hothers He.
  rewrite (run_eq llm mv sp jl inputs n g s Hn Hg Hs).
  by rewrite (final_chain_single_failure llm mv sp inputs k e), He.
Qed.

End StageFailure.

(** C5 fails on the code for one class of stage failure.  When the one
    failing stage raises a [json.JSONDecodeError], the first [except]
    clause takes it for a parse failure of the synthesis text and reads
    [raw_result], which is still unbound: the call raises
    [UnboundLocalError] instead of returning an ErrorResult. *)
Theorem C5_stage_decode_error_escapes
    (llm : model → step → str → result str)
    (mv : list str → list str → gset str → str)
    (sp : ChatPromptTemplate) (jl : str → result JSON)
    (inputs : gmap str str) (n g s : str) (k : stage_name) (e : exn) :
  inputs !! lit "niche" = Some n →
  inputs !! lit "geo" = Some g →
  inputs !! lit "stage" = Some s →
  stage_chain llm mv k inputs = Raise e →
  (∀ k', k' ≠ k → ∃ r, stage_chain llm mv k' inputs = Ok r) →
  is_JSONDecodeError e = true →
  (run llm mv sp jl inputs).2 = Raise unbound_raw_result.
Proof.
  intros Hn Hg Hs Hk Hothers He.
  by rewrite (stage_decode_error_unbound llm mv sp jl inputs n g s Hn Hg Hs k e).
Qed.

Lemma C5_witness :
  (scripted_run
     (failing_at Problem
        (Exn JSONDecodeError (lit "Expecting value: line 1 column 1 (char 0)")))
     (to_inputs example_request)).2
  = Raise unbound_raw_result.
Proof.
  apply (C5_stage_decode_error_escapes _ _ _ _ _
           (niche example_request) (geo example_request)
           (stage example_request) Problem
           (Exn JSONDecodeError (lit "Expecting value: line 1 column 1 (char 0)")));
    try (vm_compute; reflexivity).
  intros k' Hk'. exists (lit "[]").
  destruct k'; [done|vm_compute; reflexivity..].
Defined.

(** C9.  A synthesis text that decodes to a dictionary with an ["error"]
    key is returned on the success path, after the success line is
    printed, and [print_strategy] then takes the same branch as for the
    dictionary of a failure, printing the value under ["error"]; a
    dictionary that holds just that key with a text is equal to the
    dictionary returned for a failure with that text. *)
Theorem C9_error_key_reads_as_failure
    (llm : model → step → str → result str)
    (mv : list str → list str → gset str → str)
    (sp : ChatPromptTemplate) (jl : str → result JSON)
    (inputs : gmap str str) (n g s raw : str)
    (d : list (str * JSON)) (v : JSON) :
  inputs !! lit "niche" = Some n →
  inputs !! lit "geo" = Some g →
  inputs !! lit "stage" = Some s →
  final_chain llm mv sp inputs = Ok raw →
  jl (clean_result raw) = Ok (JDict d) →
  dict_get (lit "error") d = Some v →
  run llm mv sp jl inputs =
    ({| stdout :=
          [lit "🚀 Starting Startup Strategy Generation...";
           lit "📊 Niche: " ++ n; lit "🌍 Geography: " ++ g;
           lit "📈 Stage: " ++ s; lit "✅ Strategy generated successfully!"];
        raw_result := Some raw |},
     Ok (JDict d))
  ∧ error_in (JDict d) = Ok true
  ∧ print_strategy (JDict d) = Ok (ErrorLine v)
  ∧ (∀ e, error_in (failure e) = Ok true
          ∧ print_strategy (failure e) = Ok (ErrorLine (JString (exn_str e)))
          ∧ (d = [(lit "error", JString (exn_str e))] → JDict d = failure e)).
Proof.
  intros Hn Hg Hs Hraw Hjl Hd.
  rewrite (run_eq llm mv sp jl inputs n g s Hn Hg Hs), Hraw, Hjl.
  split; [done|].
  assert (Hin : error_in (JDict d) = Ok true).
  { cbn [error_in]. unfold dict_contains. by rewrite Hd. }
  split; [done|]. split.
  - unfold print_strategy. rewrite Hin. cbn [mbind result_bind error_of].
    by rewrite Hd.
  - intros e. split; [|split].
    + vm_compute; reflexivity.
    + vm_compute; reflexivity.
    + by intros ->.
Qed.

Lemma C9_witness :
  (scripted_run (answering (qlit "{'error': 'boom'}")) (to_inputs example_request)).2
  = (scripted_run (failing_at Problem (Exn OtherException (lit "boom")))
       (to_inputs example_request)).2
  ∧ print_strategy (JDict [(lit "error", JString (lit "boom"))])
    = Ok (ErrorLine (JString (lit "boom"))).
Proof.
  destruct (C9_error_key_reads_as_failure
              (scripted (answering (qlit "{'error': 'boom'}")))
              missing_text fallback_prompt Decoder.loads
              (to_inputs example_request)
              (niche example_request) (geo example_request)
              (stage example_request) (qlit "{'error': 'boom'}")
              [(lit "error", JString (lit "boom"))] (JString (lit "boom")))
    as (Hrun & _ & Hprint & _); [vm_compute; reflexivity..|].
  split; [|exact Hprint].
  unfold scripted_run at 1. rewrite Hrun. vm_compute; reflexivity.
Defined.

(** C10.  Whatever value the decoder builds from the cleaned text, a
    list, a string, a number, [None] or a dictionary, the call returns
    that value unchanged. *)
Theorem C10_parsed_value_returned_as_is
    (llm : model → step → str → result str)
    (mv : list str → list str → gset str → str)
    (sp : ChatPromptTemplate) (jl : str → result JSON)
    (inputs : gmap str str) (n g s raw : str) (v : JSON) :
  inputs !! lit "niche" = Some n →
  inputs !! lit "geo" = Some g →
  inputs !! lit "stage" = Some s →
  final_chain llm mv sp inputs = Ok raw →
  jl (clean_result raw) = Ok v →
  (run llm mv sp jl inputs).2 = Ok v.
Proof.
  intros Hn Hg Hs Hraw Hjl.
  by rewrite (run_eq llm mv sp jl inputs n g s Hn Hg Hs), Hraw, Hjl.
Qed.

Lemma C10_witness :
  (scripted_run (answering (qlit "[1, 'two', null]")) (to_inputs example_request)).2
  = Ok (JList [JInt 1; JString (lit "two"); JNull]).
Proof.
  apply (C10_parsed_value_returned_as_is
           (scripted (answering (qlit "[1, 'two', null]")))
           missing_text fallback_prompt Decoder.loads
           (to_inputs example_request)
           (niche example_request) (geo example_request)
           (stage example_request) (qlit "[1, 'two', null]"));
    vm_compute; reflexivity.
Defined.

(** ** The input of the synthesis prompt *)

(** C6.  When the eight stages succeed on a request that has its six
    fields, the synthesis prompt is invoked on a dictionary with exactly
    fourteen keys: the six request keys, each with the value of the
    original input, and the eight result keys, each with the text its
    stage returned on that same input; the fan-out hands the original
    input on unchanged. *)
Theorem C6_synthesis_input_exact
    (llm : model → step → str → result str)
    (mv : list str → list str → gset str → str)
    (sp : ChatPromptTemplate)
    (inputs : gmap str str) (res : stage_name → str) :
  (∀ key, key ∈ request_keys → is_Some (inputs !! key)) →
  (∀ k, stage_chain llm mv k inputs = Ok (res k)) →
  ∃ d : gmap str str,
    synthesis_input llm mv inputs = Ok d
    ∧ final_chain llm mv sp inputs = (text ← invoke mv sp d; llm gpt Synthesis text)
    ∧ dom d = list_to_set (request_keys ++ (result_key <$> stage_names))
    ∧ (∀ key, key ∈ request_keys → d !! key = inputs !! key)
    ∧ (∀ k, d !! result_key k = Some (res k))
    ∧ (∀ x, parallel_map llm mv inputs = Ok x → passthrough x = inputs).
Proof.
  intros Hreq Hres.
  pose proof (parallel_map_all_ok llm mv inputs res Hres) as Hpar.
  assert (Hget : ∀ key, key ∈ request_keys →
                 ∃ v, inputs !! key = Some v ∧ getitem inputs key = Ok v).
  { intros key Hkey. destruct (Hreq key Hkey) as [v Hv].
    exists v. split; [done|by apply getitem_Some]. }
  destruct (Hget (lit "niche")) as (n & Hn & Gn); [by apply (bool_decide_unpack _); vm_compute|].
  destruct (Hget (lit "stage")) as (s & Hs & Gs); [by apply (bool_decide_unpack _); vm_compute|].
  destruct (Hget (lit "geo")) as (g & Hg & Gg); [by apply (bool_decide_unpack _); vm_compute|].
  destruct (Hget (lit "founder_profile")) as (f & Hf & Gf); [by apply (bool_decide_unpack _); vm_compute|].
  destruct (Hget (lit "constraints")) as (c & Hc & Gc); [by apply (bool_decide_unpack _); vm_compute|].
  destruct (Hget (lit "goals")) as (gl & Hgl & Ggl); [by apply (bool_decide_unpack _); vm_compute|].
  eexists. split.
  { unfold synthesis_input. rewrite Hpar. cbn [mbind result_bind].
    unfold map_keys. cbn [passthrough]. rewrite Gn, Gs, Gg, Gf, Gc, Ggl.
    cbn [mbind result_bind problem_map market_scan personas solution_shapes
         gtm_ideas tech_notes ops_notes risks_list]. reflexivity. }
  split.
  { unfold final_chain, synthesis_input. rewrite Hpar. cbn [mbind result_bind].
    unfold map_keys. cbn [passthrough]. rewrite Gn, Gs, Gg, Gf, Gc, Ggl.
    reflexivity. }
  split; [by rewrite dom_list_to_map_L|].
  split.
  { intros key Hkey. unfold request_keys in Hkey.
    cbn [fmap list_fmap] in Hkey.
    repeat (apply elem_of_cons in Hkey as [->|Hkey]);
      [rewrite ?Hn, ?Hs, ?Hg, ?Hf, ?Hc, ?Hgl; vm_compute; reflexivity..|].
    by apply elem_of_nil in Hkey. }
  split.
  { intros k. destruct k; vm_compute; reflexivity. }
  intros x Hx. rewrite Hpar in Hx. by injection Hx as <-.
Qed.

Lemma example_request_complete key :
  key ∈ request_keys → is_Some (to_inputs example_request !! key).
Proof.
  unfold request_keys. cbn [fmap list_fmap]. intros Hkey.
  repeat (apply elem_of_cons in Hkey as [->|Hkey]);
    [by vm_compute; eexists..|].
  by apply elem_of_nil in Hkey.
Qed.

Lemma C6_witness :
  ∃ d : gmap str str,
    synthesis_input (scripted (answering bare_example)) missing_text
      (to_inputs example_request) = Ok d
    ∧ size d = 14%nat
    ∧ d !! lit "geo" = Some (lit "Pakistan, South Asia")
    ∧ d !! lit "personas" = Some (lit "[]").
Proof.
  destruct (C6_synthesis_input_exact (scripted (answering bare_example))
              missing_text fallback_prompt (to_inputs example_request)
              (λ _, lit "[]") example_request_complete)
    as (d & Hd & _ & Hdom & Hreq & Hres & _).
  { intros k. destruct k; vm_compute; reflexivity. }
  exists d. split; [exact Hd|]. split; [|split].
  - rewrite <- size_dom, Hdom. vm_compute; reflexivity.
  - rewrite Hreq by (by apply (bool_decide_unpack _); vm_compute).
    vm_compute; reflexivity.
  - apply (Hres Personas).
Defined.

(** ** The synthesis template *)

Lemma invoke_text
    (mv : list str → list str → gset str → str)
    (t : str) (d : gmap str str) :
  invoke mv [Text t] d = Ok t.
Proof.
  unfold invoke, format. cbn. by rewrite app_nil_r.
Qed.

Lemma load_synthesis_prompt_present (read_file : str → result str) content :
  read_file (lit "strategist_master_prompt.txt") = Ok content →
  load_synthesis_prompt read_file = Ok content.
Proof. intros H. unfold load_synthesis_prompt. by rewrite H. Qed.

Lemma load_synthesis_prompt_absent (read_file : str → result str) e :
  read_file (lit "strategist_master_prompt.txt") = Raise e →
  exn_class_of e = FileNotFoundError →
  load_synthesis_prompt read_file = Ok fallback_template.
Proof. intros H He. unfold load_synthesis_prompt. by rewrite H, He. Qed.

Lemma load_synthesis_prompt_other (read_file : str → result str) e :
  read_file (lit "strategist_master_prompt.txt") = Raise e →
  exn_class_of e ≠ FileNotFoundError →
  load_synthesis_prompt read_file = Raise e.
Proof.
  intros H He. unfold load_synthesis_prompt. rewrite H.
  by destruct (exn_class_of e).
Qed.

(** The built-in template parses to one text segment: it has no
    placeholder. *)
Lemma fallback_template_parses :
  from_template fallback_template = Ok fallback_prompt.
Proof. vm_compute; reflexivity. Qed.

Lemma import_without_file (read_file : str → result str) e :
  read_file (lit "strategist_master_prompt.txt") = Raise e →
  exn_class_of e = FileNotFoundError →
  import_synthesis_prompt read_file = Ok fallback_prompt.
Proof.
  intros H He. unfold import_synthesis_prompt.
  rewrite (load_synthesis_prompt_absent _ e H He).
  apply fallback_template_parses.
Qed.

(** C7, as the code has it.  The template is loaded from
    [strategist_master_prompt.txt] once, when the module is imported
    (line 90), not when [generate_strategy] is called: the prompt bound
    then is the parsed content of the file as it was at import, or the
    built-in template, with no failure, when opening the file raised
    [FileNotFoundError] then (any other exception makes the import fail);
    every later call runs with that prompt, whatever the file holds at
    the time of the call. *)
Theorem C7_template_loaded_at_import (at_import : str → result str) :
  (∀ content,
     at_import (lit "strategist_master_prompt.txt") = Ok content →
     import_module at_import
     = (prompt ← from_template content;
        Ok {| files := at_import; synthesis_prompt := prompt |}))
  ∧ (∀ e,
       at_import (lit "strategist_master_prompt.txt") = Raise e →
       (exn_class_of e = FileNotFoundError →
        from_template fallback_template = Ok fallback_prompt
        ∧ import_module at_import
          = Ok {| files := at_import; synthesis_prompt := fallback_prompt |})
       ∧ (exn_class_of e ≠ FileNotFoundError →
          import_module at_import = Raise e))
  ∧ (∀ p, import_module at_import = Ok p →
       import_synthesis_prompt at_import = Ok (synthesis_prompt p)
       ∧ ∀ at_call llm mv jl inputs,
           call llm mv jl inputs (write_files at_call p)
           = run llm mv (synthesis_prompt p) jl inputs).
Proof.
  split; [|split].
  - intros content H. unfold import_module, import_synthesis_prompt.
    rewrite (load_synthesis_prompt_present _ _ H). reflexivity.
  - intros e H. split.
    + intros He. split; [apply fallback_template_parses|].
      unfold import_module. by rewrite (import_without_file _ e H He).
    + intros He. unfold import_module, import_synthesis_prompt.
      by rewrite (load_synthesis_prompt_other _ e H He).
  - intros p Hp. unfold import_module in Hp.
    destruct (import_synthesis_prompt at_import) as [prompt|e]; [|done].
    injection Hp as <-. split; [done|]. reflexivity.
Qed.

Lemma C7_witness :
  import_module no_file
  = Ok {| files := no_file; synthesis_prompt := fallback_prompt |}
  ∧ import_module (file_with edited_template)
    = Ok {| files := file_with edited_template;
            synthesis_prompt := edited_prompt |}.
Proof.
  destruct (C7_template_loaded_at_import no_file) as (_ & Habsent & _).
  destruct (C7_template_loaded_at_import (file_with edited_template))
    as (Hpresent & _).
  split.
  - destruct (Habsent (Exn FileNotFoundError
       (lit "[Errno 2] No such file or directory: 'strategist_master_prompt.txt'")))
      as [H _]; [reflexivity|].
    by destruct H.
  - rewrite (Hpresent edited_template) by (vm_compute; reflexivity).
    assert (Hparse : from_template edited_template = Ok edited_prompt)
      by (vm_compute; reflexivity).
    by rewrite Hparse.
Defined.

(** C7 as stated fails: with no template file at import and the file
    written before the call, a load at call time would give the
    template of the file, but the synthesis provider is called on the
    built-in text, and the two calls return different values. *)
Lemma C7_counterexample :
  ∃ p, import_module no_file = Ok p
    ∧ load_synthesis_prompt (files (write_files (file_with edited_template) p))
      = Ok edited_template
    ∧ raw_of (Ok (call echoing missing_text Decoder.loads
                    (to_inputs example_request)
                    (write_files (file_with edited_template) p)))
      = Some fallback_template
    ∧ raw_of (spec_call echoing missing_text Decoder.loads
                (to_inputs example_request)
                (write_files (file_with edited_template) p))
      = Some (lit "Plan for AI agents for ecommerce.")
    ∧ spec_call echoing missing_text Decoder.loads
        (to_inputs example_request)
        (write_files (file_with edited_template) p)
      ≠ Ok (call echoing missing_text Decoder.loads
              (to_inputs example_request)
              (write_files (file_with edited_template) p)).
Proof.
  exists {| files := no_file; synthesis_prompt := fallback_prompt |}.
  split; [vm_compute; reflexivity|].
  split; [vm_compute; reflexivity|].
  split; [vm_compute; reflexivity|].
  split; [vm_compute; reflexivity|].
  intros H. apply (f_equal raw_of) in H. vm_compute in H. discriminate H.
Qed.

(** ** Rendering the stage prompts *)

Lemma format_app (a b : ChatPromptTemplate) (i : gmap str str) :
  format (a ++ b) i = format a i ++ format b i.
Proof. unfold format. by rewrite fmap_app, concat_app. Qed.

Lemma format_field (name : str) (b : ChatPromptTemplate) (i : gmap str str) v :
  i !! name = Some v → format (Field name :: b) i = v ++ format b i.
Proof. intros H. unfold format. cbn. by rewrite H. Qed.

Lemma format_insert_irrelevant (a : ChatPromptTemplate) (name v : str)
    (i : gmap str str) :
  references a name = false → format a (<[name:=v]> i) = format a i.
Proof.
  unfold references. intros H%bool_decide_eq_false.
  induction a as [|seg a IH]; [done|].
  change (seg :: a) with ([seg] ++ a). rewrite !(format_app [seg]).
  destruct seg as [t|n].
  - rewrite IH; [done|]. intros Hin. by apply H.
  - assert (n ≠ name) as Hne.
    { intros ->. apply H. cbn. by left. }
    rewrite IH.
    + unfold format. cbn. by rewrite lookup_insert_ne.
    + intros Hin. apply H. cbn. by right.
Qed.

Lemma split_at_field (name : str) (p : ChatPromptTemplate) :
  references p name = true →
  p = before_field name p ++ Field name :: after_field name p.
Proof.
  unfold references. intros H%bool_decide_eq_true.
  induction p as [|seg p IH]; [by apply elem_of_nil in H|].
  destruct seg as [t|n]; cbn [before_field after_field].
  - cbn [app]. f_equal. by apply IH.
  - case_bool_decide as Hn; [by subst|].
    cbn [app]. f_equal. apply IH.
    cbn in H. apply elem_of_cons in H as [->|H]; done.
Qed.

Lemma before_field_no_reference (name : str) (p : ChatPromptTemplate) :
  references (before_field name p) name = false.
Proof.
  unfold references. apply bool_decide_eq_false.
  induction p as [|seg p IH]; [by intros H%elem_of_nil|].
  destruct seg as [t|n]; cbn [before_field]; [done|].
  case_bool_decide as Hn; [by intros H%elem_of_nil|].
  cbn. intros [->|H]%elem_of_cons; done.
Qed.

Lemma stage_prompt_ok k : stage_prompt k = Ok (parsed_prompt k).
Proof. destruct k; vm_compute; reflexivity. Qed.

Lemma references_geo k :
  references (parsed_prompt k) (lit "geo") = bool_decide (k ∈ geo_stages).
Proof. destruct k; vm_compute; reflexivity. Qed.

(** No template names [{geo}] twice. *)
Lemma after_geo_no_reference k :
  references (after_field (lit "geo") (parsed_prompt k)) (lit "geo") = false.
Proof. destruct k; vm_compute; reflexivity. Qed.

(** A request supplies every variable of every stage template. *)
Lemma invoke_request
    (mv : list str → list str → gset str → str)
    k (r : StrategyRequest) :
  invoke mv (parsed_prompt k) (to_inputs r)
  = Ok (format (parsed_prompt k) (to_inputs r)).
Proof. destruct k; vm_compute; reflexivity. Qed.

Lemma insert_geo_over (n s g g' : str) (rest : gmap str str) :
  <[lit "geo" := g']> (<[lit "niche" := n]> (<[lit "stage" := s]>
    (<[lit "geo" := g]> rest)))
  = <[lit "niche" := n]> (<[lit "stage" := s]> (<[lit "geo" := g']> rest)).
Proof.
  rewrite (insert_insert_ne _ (lit "geo") (lit "niche")) by
    (intros Hk; vm_compute in Hk; discriminate Hk).
  rewrite (insert_insert_ne _ (lit "geo") (lit "stage")) by
    (intros Hk; vm_compute in Hk; discriminate Hk).
  by rewrite insert_insert_eq.
Qed.

Lemma to_inputs_geo (r1 r2 : StrategyRequest) :
  niche r1 = niche r2 → stage r1 = stage r2 →
  founder_profile r1 = founder_profile r2 →
  constraints r1 = constraints r2 → goals r1 = goals r2 →
  to_inputs r2 = <[lit "geo" := geo r2]> (to_inputs r1).
Proof.
  intros Hn Hs Hf Hc Hg. unfold to_inputs.
  rewrite Hn, Hs, Hf, Hc, Hg. rewrite !list_to_map_cons.
  symmetry. apply insert_geo_over.
Qed.

(** C8.  For two requests that differ in [geo] only, the prompt of a
    stage whose template names [{geo}], that is one of [problem_map],
    [market_scan], [personas], [gtm_ideas] and [ops_notes], renders to the
    same text before and the same text after the place where each
    request's [geo] stands; the prompt of any other stage renders to the
    same text for both. *)
Theorem C8_geo_only_where_referenced
    (mv : list str → list str → gset str → str)
    (r1 r2 : StrategyRequest) (k : stage_name) :
  niche r1 = niche r2 → stage r1 = stage r2 →
  founder_profile r1 = founder_profile r2 →
  constraints r1 = constraints r2 → goals r1 = goals r2 →
  ∃ p, stage_prompt k = Ok p
    ∧ (references p (lit "geo") = true ↔ k ∈ geo_stages)
    ∧ (references p (lit "geo") = true →
       ∃ pre post,
         invoke mv p (to_inputs r1) = Ok (pre ++ geo r1 ++ post)
         ∧ invoke mv p (to_inputs r2) = Ok (pre ++ geo r2 ++ post)
         ∧ (geo r1 ≠ geo r2 → pre ++ geo r1 ++ post ≠ pre ++ geo r2 ++ post))
    ∧ (references p (lit "geo") = false →
       ∃ text,
         invoke mv p (to_inputs r1) = Ok text
         ∧ invoke mv p (to_inputs r2) = Ok text).
Proof.
  intros Hn Hs Hf Hc Hg.
  pose proof (to_inputs_geo r1 r2 Hn Hs Hf Hc Hg) as H2.
  exists (parsed_prompt k). split; [apply stage_prompt_ok|].
  split; [by rewrite references_geo, bool_decide_eq_true|].
  rewrite !invoke_request. split.
  - intros Href.
    exists (format (before_field (lit "geo") (parsed_prompt k)) (to_inputs r1)),
           (format (after_field (lit "geo") (parsed_prompt k)) (to_inputs r1)).
    assert (Hsplit : ∀ (i : gmap str str) v, i !! lit "geo" = Some v →
              format (parsed_prompt k) i
              = format (before_field (lit "geo") (parsed_prompt k)) i
                ++ v ++ format (after_field (lit "geo") (parsed_prompt k)) i).
    { intros i v Hv. rewrite (split_at_field _ _ Href) at 1.
      by rewrite format_app, (format_field _ _ _ v). }
    split; [|split].
    + by rewrite (Hsplit _ (geo r1)) by (vm_compute; reflexivity).
    + rewrite H2, (Hsplit _ (geo r2)) by apply lookup_insert_eq.
      rewrite !format_insert_irrelevant;
        [done|apply after_geo_no_reference|apply before_field_no_reference].
    + intros Hne Heq. apply Hne.
      apply app_inv_head in Heq. by apply app_inv_tail in Heq.
  - intros Href. eexists. split; [done|].
    by rewrite H2, format_insert_irrelevant.
Qed.

Lemma C8_witness :
  ∃ pre post,
    invoke missing_text (parsed_prompt Market) (to_inputs example_request)
    = Ok (pre ++ geo example_request ++ post)
    ∧ invoke missing_text (parsed_prompt Market) (to_inputs global_request)
      = Ok (pre ++ geo global_request ++ post).
Proof.
  assert (Hn : niche example_request = niche global_request)
    by (vm_compute; reflexivity).
  assert (Hs : stage example_request = stage global_request)
    by (vm_compute; reflexivity).
  assert (Hf : founder_profile example_request = founder_profile global_request)
    by (vm_compute; reflexivity).
  assert (Hc : constraints example_request = constraints global_request)
    by (vm_compute; reflexivity).
  assert (Hg : goals example_request = goals global_request)
    by (vm_compute; reflexivity).
  destruct (C8_geo_only_where_referenced missing_text example_request
              global_request Market Hn Hs Hf Hc Hg)
    as (p & Hp & _ & Hgeo & _).
  assert (Hq : Ok p = Ok (parsed_prompt Market)).
  { rewrite <- Hp. apply stage_prompt_ok. }
  assert (p = parsed_prompt Market) as -> by congruence.
  destruct Hgeo as (pre & post & H1 & H2 & _).
  { rewrite references_geo. reflexivity. }
  exists pre, post. exact (conj H1 H2).
Defined.


(** * Further properties *)

(** ** Before the [try] *)

Section BeforeTry.

Context (llm : model → step → str → result str)
  (mv : list str → list str → gset str → str).
Context (sp : ChatPromptTemplate) (jl : str → result JSON).
Context (inputs : gmap str str).

Local Ltac run_to_raise :=
  unfold run, generate_strategy, banner, mbind, M_bind, lift, print;
  cbn [stdout raw_result app]; reflexivity.

Lemma run_missing_niche :
  inputs !! lit "niche" = None →
  run llm mv sp jl inputs =
    ({| stdout := [banner]; raw_result := None |},
     Raise (Exn KeyError (lit "'" ++ lit "niche" ++ lit "'"))).
Proof.
  intros Hn. unfold run, generate_strategy.
  rewrite (getitem_None _ (lit "niche")) by done. run_to_raise.
Qed.

Lemma run_missing_geo n :
  inputs !! lit "niche" = Some n →
  inputs !! lit "geo" = None →
  run llm mv sp jl inputs =
    ({| stdout := [banner; lit "📊 Niche: " ++ n]; raw_result := None |},
     Raise (Exn KeyError (lit "'" ++ lit "geo" ++ lit "'"))).
Proof.
  intros Hn Hg. unfold run, generate_strategy.
  rewrite (getitem_Some _ _ _ Hn), (getitem_None _ (lit "geo")) by done.
  run_to_raise.
Qed.

Lemma run_missing_stage n g :
  inputs !! lit "niche" = Some n →
  inputs !! lit "geo" = Some g →
  inputs !! lit "stage" = None →
  run llm mv sp jl inputs =
    ({| stdout := [banner; lit "📊 Niche: " ++ n; lit "🌍 Geography: " ++ g];
        raw_result := None |},
     Raise (Exn KeyError (lit "'" ++ lit "stage" ++ lit "'"))).
Proof.
  intros Hn Hg Hs. unfold run, generate_strategy.
  rewrite (getitem_Some _ _ _ Hn), (getitem_Some _ _ _ Hg),
    (getitem_None _ (lit "stage")) by done.
  run_to_raise.
Qed.

End BeforeTry.

(** X1.  Whatever the collaborators do, a request without one of the three
    keys that are printed first makes the call raise the [KeyError] of
    the first one missing in the order niche, geo, stage, after the banner
    and the lines of the keys read before it: without niche, that of
    niche after the banner alone; with niche and without geo, that of geo
    after the niche line, whether or not stage is there; with both,
    that of stage after the niche and geography lines. *)
Theorem printed_key_missing_escapes
    (llm : model → step → str → result str)
    (mv : list str → list str → gset str → str)
    (sp : ChatPromptTemplate) (jl : str → result JSON)
    (inputs : gmap str str) (key : str) :
  key ∈ [lit "niche"; lit "geo"; lit "stage"] →
  inputs !! key = None →
  run llm mv sp jl inputs =
    match inputs !! lit "niche", inputs !! lit "geo" with
    | None, _ =>
      ({| stdout := [banner]; raw_result := None |},
       Raise (Exn KeyError (lit "'niche'")))
    | Some n, None =>
      ({| stdout := [banner; lit "📊 Niche: " ++ n]; raw_result := None |},
       Raise (Exn KeyError (lit "'geo'")))
    | Some n, Some g =>
      ({| stdout := [banner; lit "📊 Niche: " ++ n; lit "🌍 Geography: " ++ g];
          raw_result := None |},
       Raise (Exn KeyError (lit "'stage'")))
    end.
Proof.
  intros Hkey Hnone.
  destruct (inputs !! lit "niche") as [n|] eqn:Hn.
  - destruct (inputs !! lit "geo") as [g|] eqn:Hg.
    + assert (Hs : inputs !! lit "stage" = None).
      { repeat (apply elem_of_cons in Hkey as [->|Hkey]); try congruence.
        by apply elem_of_nil in Hkey. }
      by apply run_missing_stage.
    + by apply run_missing_geo.
  - by apply run_missing_niche.
Qed.

Lemma printed_key_missing_escapes_witness :
  scripted_run (answering bare_example)
    (delete (lit "stage") (delete (lit "geo") (to_inputs example_request)))
  = ({| stdout := [banner; lit "📊 Niche: AI agents for ecommerce"];
        raw_result := None |},
     Raise (Exn KeyError (lit "'geo'"))).
Proof.
  unfold scripted_run.
  rewrite (printed_key_missing_escapes (scripted (answering bare_example))
             missing_text fallback_prompt Decoder.loads
             (delete (lit "stage")
                (delete (lit "geo") (to_inputs example_request)))
             (lit "stage")).
  - vm_compute; reflexivity.
  - by apply (bool_decide_unpack _); vm_compute.
  - vm_compute; reflexivity.
Defined.

(** ** What can escape *)

(** X2.  With the three printed keys present, the only exception that leaves
    the call is the [UnboundLocalError] of the first handler, and it does
    so exactly when the chain itself raised a [JSONDecodeError]. *)
Theorem only_unbound_local_escapes
    (llm : model → step → str → result str)
    (mv : list str → list str → gset str → str)
    (sp : ChatPromptTemplate) (jl : str → result JSON)
    (inputs : gmap str str) (n g s : str) (e : exn) :
  inputs !! lit "niche" = Some n →
  inputs !! lit "geo" = Some g →
  inputs !! lit "stage" = Some s →
  (run llm mv sp jl inputs).2 = Raise e
  ↔ e = unbound_raw_result
    ∧ ∃ e', final_chain llm mv sp inputs = Raise e' ∧ is_JSONDecodeError e' = true.
Proof.
  intros Hn Hg Hs. rewrite (run_eq llm mv sp jl inputs n g s Hn Hg Hs).
  destruct (final_chain llm mv sp inputs) as [raw|e'].
  - split; [|by intros (_ & e' & [=] & _)].
    destruct (jl (clean_result raw)) as [v|e'']; [done|].
    by destruct (is_JSONDecodeError e'').
  - destruct (is_JSONDecodeError e') eqn:He.
    + cbn [snd]. split.
      * intros [= <-]. split; [done|]. by exists e'.
      * by intros [-> _].
    + split; [done|]. intros (_ & e'' & [= <-] & He''). congruence.
Qed.

Lemma only_unbound_local_escapes_witness :
  (scripted_run
     (failing_at Market (Exn JSONDecodeError (lit "Extra data")))
     (to_inputs example_request)).2
  = Raise unbound_raw_result.
Proof.
  apply (only_unbound_local_escapes
           (scripted (failing_at Market (Exn JSONDecodeError (lit "Extra data"))))
           missing_text fallback_prompt Decoder.loads
           (to_inputs example_request)
           (niche example_request) (geo example_request)
           (stage example_request) unbound_raw_result);
    [vm_compute; reflexivity..|].
  split; [reflexivity|].
  exists (Exn JSONDecodeError (lit "Extra data")).
  split; vm_compute; reflexivity.
Defined.

(** ** Failures that are returned *)

Lemma error_dict_prints (float_truth : str → bool) d v :
  dict_get (lit "error") d = Some v →
  print_strategy_lines float_truth (JDict d)
  = ([[Lit (lit "❌ Error: "); Shown v]], Ok ()).
Proof.
  intros H. unfold print_strategy_lines. cbn [error_in]. unfold dict_contains.
  rewrite H. unfold mbind, W_bind, check, emit. cbn [error_of]. by rewrite H.
Qed.

Lemma parse_failure_fields raw :
  dict_get (lit "error") [(lit "error", JString (lit "Failed to parse JSON response"));
                          (lit "raw", JString raw)]
  = Some (JString (lit "Failed to parse JSON response"))
  ∧ dict_contains (lit "raw")
      [(lit "error", JString (lit "Failed to parse JSON response"));
       (lit "raw", JString raw)] = true.
Proof. split; vm_compute; reflexivity. Qed.

Lemma failure_fields text :
  dict_get (lit "error") [(lit "error", JString text)] = Some (JString text)
  ∧ dict_contains (lit "raw") [(lit "error", JString text)] = false.
Proof. split; vm_compute; reflexivity. Qed.

(** X3.  Whenever the call returns although the chain or the decoder raised,
    the value is a dictionary whose ["error"] is a text, it has a ["raw"]
    entry exactly when the decoder raised a [JSONDecodeError], and
    [print_strategy] prints the one error line for it and returns. *)
Theorem returned_failure_prints_error_line
    (llm : model → step → str → result str)
    (mv : list str → list str → gset str → str)
    (sp : ChatPromptTemplate) (jl : str → result JSON)
    (float_truth : str → bool)
    (inputs : gmap str str) (n g s : str) (v : JSON) :
  inputs !! lit "niche" = Some n →
  inputs !! lit "geo" = Some g →
  inputs !! lit "stage" = Some s →
  (run llm mv sp jl inputs).2 = Ok v →
  (∀ raw, final_chain llm mv sp inputs = Ok raw →
          ∃ e, jl (clean_result raw) = Raise e) →
  ∃ d text,
    v = JDict d
    ∧ dict_get (lit "error") d = Some (JString text)
    ∧ (dict_contains (lit "raw") d = true
       ↔ ∃ raw e, final_chain llm mv sp inputs = Ok raw
                  ∧ jl (clean_result raw) = Raise e
                  ∧ is_JSONDecodeError e = true)
    ∧ print_strategy_lines float_truth v
      = ([[Lit (lit "❌ Error: "); Shown (JString text)]], Ok ()).
Proof.
  intros Hn Hg Hs. rewrite (run_eq llm mv sp jl inputs n g s Hn Hg Hs).
  destruct (final_chain llm mv sp inputs) as [raw|e].
  - intros Hv Hfail. destruct (Hfail raw eq_refl) as [e He].
    rewrite He in Hv. destruct (is_JSONDecodeError e) eqn:Hcls.
    + cbn [snd] in Hv. injection Hv as <-.
      destruct (parse_failure_fields raw) as [Herr Hraw].
      exists [(lit "error", JString (lit "Failed to parse JSON response"));
              (lit "raw", JString raw)], (lit "Failed to parse JSON response").
      split; [reflexivity|]. split; [exact Herr|].
      split; [|by apply error_dict_prints].
      split; [|intros _; exact Hraw].
      intros _. by exists raw, e.
    + cbn [snd] in Hv. injection Hv as <-.
      destruct (failure_fields (exn_str e)) as [Herr Hraw].
      exists [(lit "error", JString (exn_str e))], (exn_str e).
      split; [reflexivity|]. split; [exact Herr|].
      split; [|by apply error_dict_prints].
      rewrite Hraw. split; [done|].
      intros (raw' & e' & [= <-] & He' & Hcls'). congruence.
  - intros Hv _. destruct (is_JSONDecodeError e) eqn:Hcls; [done|].
    cbn [snd] in Hv. injection Hv as <-.
    destruct (failure_fields (exn_str e)) as [Herr Hraw].
    exists [(lit "error", JString (exn_str e))], (exn_str e).
    split; [reflexivity|]. split; [exact Herr|].
    split; [|by apply error_dict_prints].
    rewrite Hraw. split; [done|].
    intros (raw' & e' & [=] & _).
Qed.

Lemma returned_failure_prints_error_line_witness :
  ∃ d text,
    (scripted_run (answering long_text) (to_inputs example_request)).2 = Ok (JDict d)
    ∧ dict_get (lit "error") d = Some (JString text)
    ∧ print_strategy_lines (λ _, true) (JDict d)
      = ([[Lit (lit "❌ Error: "); Shown (JString text)]], Ok ()).
Proof.
  destruct (returned_failure_prints_error_line
              (scripted (answering long_text)) missing_text fallback_prompt
              Decoder.loads (λ _, true) (to_inputs example_request)
              (niche example_request) (geo example_request)
              (stage example_request) (parse_failure long_text))
    as (d & text & Hv & Hd & _ & Hp); [vm_compute; reflexivity..| |].
  { intros raw Hraw.
    assert (raw = long_text) as ->.
    { assert (Hc : final_chain (scripted (answering long_text)) missing_text
                     fallback_prompt (to_inputs example_request) = Ok long_text)
        by (vm_compute; reflexivity).
      congruence. }
    exists (Exn JSONDecodeError (lit "Expecting value: line 1 column 1 (char 0)")).
    vm_compute; reflexivity. }
  exists d, text. rewrite <- Hv. split; [vm_compute; reflexivity|].
  split; [exact Hd|exact Hp].
Defined.

(** ** Rendering and the stages *)

Lemma stage_chain_eq (llm : model → step → str → result str)
    (mv : list str → list str → gset str → str)
    (k : stage_name) (inputs : gmap str str) :
  stage_chain llm mv k inputs
  = (text ← invoke mv (parsed_prompt k) inputs; llm (stage_model k) (Stage k) text).
Proof.
  pose proof (stage_prompt_ok k) as Hp.
  destruct k; cbn [stage_chain stage_prompt stage_model] in *;
    unfold problem_chain, market_chain, personas_chain, solutions_chain,
      gtm_chain, tech_chain, ops_chain, risks_chain, chain;
    by rewrite Hp.
Qed.

(** X4.  All eight templates parse and name request fields only: for a
    complete request, whatever text its fields hold, no prompt fails to
    render, and the outcome of a stage is that of its provider, [gem] for
    market_scan, solution_shapes and ops_notes and [gpt] for the others,
    on the rendered text. *)
Theorem stage_runs_provider_on_rendered_prompt
    (llm : model → step → str → result str)
    (mv : list str → list str → gset str → str)
    (k : stage_name) (r : StrategyRequest) :
  stage_chain llm mv k (to_inputs r)
  = llm (stage_model k) (Stage k) (format (parsed_prompt k) (to_inputs r)).
Proof. by rewrite stage_chain_eq, invoke_request. Qed.

Lemma missing_agree (l : list str) (i1 i2 : gmap str str) :
  (∀ x, x ∈ l → i1 !! x = i2 !! x) →
  filter (λ v, i1 !! v = None) l = filter (λ v, i2 !! v = None) l.
Proof.
  intros H. induction l as [|x l IH]; [done|].
  rewrite !filter_cons. rewrite IH by (intros y Hy; apply H; by right).
  rewrite (H x) by by left. done.
Qed.

Lemma format_agree (p : ChatPromptTemplate) (i1 i2 : gmap str str) :
  (∀ x, x ∈ input_variables p → i1 !! x = i2 !! x) →
  format p i1 = format p i2.
Proof.
  intros H. unfold format. f_equal.
  induction p as [|seg p IH]; [done|].
  cbn [fmap list_fmap]. f_equal.
  - destruct seg as [t|x]; [done|]. cbn. rewrite (H x); [done|]. cbn. by left.
  - apply IH. intros x Hx. apply H. destruct seg; cbn; [done|by right].
Qed.

(** [invoke] looks at the variables of the template and, for the text of
    its [KeyError], at the keys received. *)
Lemma invoke_agree (mv : list str → list str → gset str → str)
    (p : ChatPromptTemplate) (i1 i2 : gmap str str) :
  (∀ x, x ∈ input_variables p → i1 !! x = i2 !! x) →
  dom i1 = dom i2 →
  invoke mv p i1 = invoke mv p i2.
Proof.
  intros H Hdom. unfold invoke.
  by rewrite (missing_agree _ i1 i2 H), (format_agree p i1 i2 H), Hdom.
Qed.

(** A prompt renders on an input that has all its variables. *)
Lemma invoke_renders (mv : list str → list str → gset str → str)
    (p : ChatPromptTemplate) (i : gmap str str) :
  (∀ x, x ∈ input_variables p → is_Some (i !! x)) →
  invoke mv p i = Ok (format p i).
Proof.
  intros H. unfold invoke.
  destruct (filter (λ v, i !! v = None) (input_variables p)) as [|y l] eqn:Hf;
    [done|].
  assert (y ∈ filter (λ v, i !! v = None) (input_variables p)) as Hin
    by (rewrite Hf; by left).
  apply list_elem_of_filter in Hin as [Hnone Hy].
  destruct (H y Hy) as [v Hv]. congruence.
Qed.

(** Where the prompt renders, only the variables of the template count. *)
Lemma invoke_renders_agree (mv : list str → list str → gset str → str)
    (p : ChatPromptTemplate) (i1 i2 : gmap str str) :
  (∀ x, x ∈ input_variables p → is_Some (i2 !! x)) →
  (∀ x, x ∈ input_variables p → i1 !! x = i2 !! x) →
  invoke mv p i1 = invoke mv p i2.
Proof.
  intros Hall H. rewrite !invoke_renders.
  - by rewrite (format_agree p i1 i2 H).
  - done.
  - intros x Hx. rewrite (H x Hx). by apply Hall.
Qed.

(** A prompt that renders has all its variables in the input. *)
Lemma invoke_ok_lookup
    (mv : list str → list str → gset str → str)
    (p : ChatPromptTemplate)
    (i : gmap str str) (text x : str) :
  invoke mv p i = Ok text → x ∈ input_variables p → is_Some (i !! x).
Proof.
  unfold invoke. intros H Hx.
  destruct (filter (λ v, i !! v = None) (input_variables p)) as [|y l] eqn:Hf;
    [|done].
  destruct (i !! x) eqn:Hix; [by eexists|].
  assert (x ∈ filter (λ v, i !! v = None) (input_variables p)) as Hin
    by by apply list_elem_of_filter.
  rewrite Hf in Hin. by apply elem_of_nil in Hin.
Qed.

(** X5.  On an input that has every variable the template of a stage
    names, a key that the template does not name has no effect on the
    stage: setting it to anything, or removing it, leaves the outcome of
    the stage as it was.  (On an input that lacks a named variable the
    stage raises a [KeyError] whose text lists the keys received, so the
    hypothesis is needed.) *)
Theorem stage_ignores_unnamed_key
    (llm : model → step → str → result str)
    (mv : list str → list str → gset str → str)
    (k : stage_name) (key v : str) (inputs : gmap str str) :
  references (parsed_prompt k) key = false →
  (∀ x, x ∈ input_variables (parsed_prompt k) → is_Some (inputs !! x)) →
  stage_chain llm mv k (<[key:=v]> inputs) = stage_chain llm mv k inputs
  ∧ stage_chain llm mv k (delete key inputs) = stage_chain llm mv k inputs.
Proof.
  unfold references. intros H%bool_decide_eq_false Hall.
  rewrite !stage_chain_eq. split.
  - rewrite (invoke_renders_agree mv _ (<[key:=v]> inputs) inputs); [done..|].
    intros x Hx. apply lookup_insert_ne. by intros ->.
  - rewrite (invoke_renders_agree mv _ (delete key inputs) inputs); [done..|].
    intros x Hx. apply lookup_delete_ne. by intros ->.
Qed.

Lemma stage_ignores_unnamed_key_witness :
  stage_chain (scripted (answering bare_example)) missing_text Market
    (delete (lit "founder_profile") (to_inputs example_request))
  = stage_chain (scripted (answering bare_example)) missing_text Market
      (to_inputs example_request).
Proof.
  apply (stage_ignores_unnamed_key (scripted (answering bare_example))
           missing_text Market (lit "founder_profile") []).
  - vm_compute; reflexivity.
  - intros x Hx. apply (invoke_ok_lookup missing_text (parsed_prompt Market)
                          (to_inputs example_request)
                          (format (parsed_prompt Market)
                             (to_inputs example_request)) x);
      [apply invoke_request|exact Hx].
Defined.

(** X6.  No stage template names [{goals}]: on an input that has every
    variable the template of a stage names, setting or removing ['goals']
    leaves the outcome of the stage as it was, so the goals of a request
    reach the synthesis prompt only. *)
Theorem goals_reach_no_stage
    (llm : model → step → str → result str)
    (mv : list str → list str → gset str → str)
    (k : stage_name) (v : str) (inputs : gmap str str) :
  (∀ x, x ∈ input_variables (parsed_prompt k) → is_Some (inputs !! x)) →
  references (parsed_prompt k) (lit "goals") = false
  ∧ stage_chain llm mv k (<[lit "goals":=v]> inputs)
    = stage_chain llm mv k inputs
  ∧ stage_chain llm mv k (delete (lit "goals") inputs)
    = stage_chain llm mv k inputs.
Proof.
  intros Hall.
  assert (Hk : references (parsed_prompt k) (lit "goals") = false)
    by (destruct k; vm_compute; reflexivity).
  split; [exact Hk|].
  unfold references in Hk. apply bool_decide_eq_false in Hk.
  rewrite !stage_chain_eq. split.
  - rewrite (invoke_renders_agree mv _ (<[lit "goals":=v]> inputs) inputs);
      [done..|].
    intros x Hx. apply lookup_insert_ne. by intros <-.
  - rewrite (invoke_renders_agree mv _ (delete (lit "goals") inputs) inputs);
      [done..|].
    intros x Hx. apply lookup_delete_ne. by intros <-.
Qed.

Lemma goals_reach_no_stage_witness :
  stage_chain (scripted (answering bare_example)) missing_text Problem
    (delete (lit "goals") (to_inputs example_request))
  = stage_chain (scripted (answering bare_example)) missing_text Problem
      (to_inputs example_request).
Proof.
  apply (goals_reach_no_stage (scripted (answering bare_example))
           missing_text Problem []).
  intros x Hx. apply (invoke_ok_lookup missing_text (parsed_prompt Problem)
                        (to_inputs example_request)
                        (format (parsed_prompt Problem)
                           (to_inputs example_request)) x);
    [apply invoke_request|exact Hx].
Defined.

(** X7.  A request whose eight stages succeed but which has no ['goals'] is
    only caught by the lambda of [final_chain]: the call returns the
    dictionary of that [KeyError]. *)
Theorem missing_goals_caught_after_fan_out
    (llm : model → step → str → result str)
    (mv : list str → list str → gset str → str)
    (sp : ChatPromptTemplate) (jl : str → result JSON)
    (inputs : gmap str str) (res : stage_name → str) :
  (∀ k, stage_chain llm mv k inputs = Ok (res k)) →
  inputs !! lit "goals" = None →
  final_chain llm mv sp inputs = Raise (Exn KeyError (lit "'goals'"))
  ∧ (run llm mv sp jl inputs).2 = Ok (JDict [(lit "error", JString (lit "'goals'"))]).
Proof.
  intros Hres Hgoals.
  pose proof (Hres Problem) as Hp. rewrite stage_chain_eq in Hp.
  destruct (invoke mv (parsed_prompt Problem) inputs) as [text|e] eqn:Hinv;
    [|done].
  assert (Hvar : ∀ x, x ∈ input_variables (parsed_prompt Problem) →
                 ∃ v, getitem inputs x = Ok v ∧ inputs !! x = Some v).
  { intros x Hx. destruct (invoke_ok_lookup mv _ _ _ x Hinv Hx) as [v Hv].
    exists v. split; [by apply getitem_Some|done]. }
  destruct (Hvar (lit "niche")) as (n & Gn & Hn);
    [by apply (bool_decide_unpack _); vm_compute|].
  destruct (Hvar (lit "stage")) as (s & Gs & Hs);
    [by apply (bool_decide_unpack _); vm_compute|].
  destruct (Hvar (lit "geo")) as (g & Gg & Hg);
    [by apply (bool_decide_unpack _); vm_compute|].
  destruct (Hvar (lit "founder_profile")) as (f & Gf & Hf);
    [by apply (bool_decide_unpack _); vm_compute|].
  destruct (Hvar (lit "constraints")) as (c & Gc & Hc);
    [by apply (bool_decide_unpack _); vm_compute|].
  assert (Hchain : final_chain llm mv sp inputs
                   = Raise (Exn KeyError (lit "'goals'"))).
  { unfold final_chain, synthesis_input.
    rewrite (parallel_map_all_ok llm mv inputs res Hres).
    cbn [mbind result_bind]. unfold map_keys. cbn [passthrough].
    rewrite Gn, Gs, Gg, Gf, Gc. cbn [mbind result_bind].
    rewrite (getitem_None _ (lit "goals")) by done. reflexivity. }
  split; [done|].
  rewrite (run_eq llm mv sp jl inputs n g s Hn Hg Hs), Hchain. reflexivity.
Qed.

Lemma missing_goals_caught_after_fan_out_witness :
  (scripted_run (answering bare_example)
     (delete (lit "goals") (to_inputs example_request))).2
  = Ok (JDict [(lit "error", JString (lit "'goals'"))]).
Proof.
  apply (missing_goals_caught_after_fan_out (scripted (answering bare_example))
           missing_text fallback_prompt Decoder.loads
           (delete (lit "goals") (to_inputs example_request)) (λ _, lit "[]")).
  - intros k. destruct k; vm_compute; reflexivity.
  - vm_compute; reflexivity.
Defined.

(** ** The synthesis prompt *)

(** A template without placeholder renders to itself. *)
Lemma final_chain_constant_template
    (llm : model → step → str → result str)
    (mv : list str → list str → gset str → str)
    (t : str) (inputs d : gmap str str) :
  synthesis_input llm mv inputs = Ok d →
  final_chain llm mv [Text t] inputs = llm gpt Synthesis t.
Proof.
  intros Hd. unfold final_chain. rewrite Hd.
  unfold mbind, result_bind. by rewrite invoke_text.
Qed.

(** X8.  With no template file the synthesis prompt is the built-in text, which
    has no placeholder: whenever the fan-out and the key mapping succeed,
    the synthesis call is made on that fixed text, and neither the request
    nor any stage result reaches it. *)
Theorem fallback_prompt_drops_all_inputs
    (llm : model → step → str → result str)
    (mv : list str → list str → gset str → str)
    (inputs d : gmap str str) :
  synthesis_input llm mv inputs = Ok d →
  final_chain llm mv fallback_prompt inputs = llm gpt Synthesis fallback_template.
Proof. apply final_chain_constant_template. Qed.

Lemma fallback_prompt_drops_all_inputs_witness :
  final_chain (scripted (answering bare_example)) missing_text fallback_prompt
    (to_inputs example_request)
  = Ok bare_example.
Proof.
  assert (Hok : match synthesis_input (scripted (answering bare_example))
                        missing_text (to_inputs example_request) with
                | Ok _ => true
                | Raise _ => false
                end = true) by (vm_compute; reflexivity).
  destruct (synthesis_input (scripted (answering bare_example)) missing_text
              (to_inputs example_request)) as [d|e] eqn:Hd; [|discriminate Hok].
  rewrite (fallback_prompt_drops_all_inputs _ _ _ d Hd). reflexivity.
Defined.

Lemma list_to_map_agree (kk y : str) (l l' : list (str * str)) :
  Forall2 (λ a b, a.1 = b.1 ∧ (a.1 ≠ kk → a.2 = b.2)) l l' →
  y ≠ kk →
  (list_to_map l : gmap str str) !! y = (list_to_map l' : gmap str str) !! y.
Proof.
  intros H Hy. induction H as [|[a1 a2] [b1 b2] l l' [Hk Hv] _ IH]; [done|].
  cbn [fst snd] in *. subst b1. rewrite !list_to_map_cons.
  destruct (decide (a1 = y)) as [->|Hne].
  - rewrite !lookup_insert_eq. by rewrite Hv.
  - by rewrite !lookup_insert_ne.
Qed.

Lemma list_to_map_dom_agree (kk : str) (l l' : list (str * str)) :
  Forall2 (λ a b, a.1 = b.1 ∧ (a.1 ≠ kk → a.2 = b.2)) l l' →
  dom (list_to_map l : gmap str str) = dom (list_to_map l' : gmap str str).
Proof.
  intros H. induction H as [|[a1 a2] [b1 b2] l l' [Hk _] _ IH]; [done|].
  cbn [fst] in Hk. subst b1. rewrite !list_to_map_cons, !dom_insert_L.
  by rewrite IH.
Qed.

Lemma final_chain_synthesis_text
    (mv : list str → list str → gset str → str) (sp : ChatPromptTemplate)
    (llm : model → step → str → result str) (inputs : gmap str str) :
  final_chain llm mv sp inputs
  = (y ← parallel_map llm mv inputs;
     text ← synthesis_text mv sp y; llm gpt Synthesis text).
Proof.
  unfold final_chain, synthesis_input, synthesis_text.
  destruct (parallel_map llm mv inputs) as [y|e]; [|done].
  unfold mbind, result_bind. by destruct (map_keys y).
Qed.

(** X9.  The synthesis prompt sees a stage result only through the
    placeholder of its key: when the loaded template does not name the
    key of a stage, the text the synthesis provider is called on is the
    same whatever that stage returned. *)
Theorem unnamed_stage_result_is_dropped
    (mv : list str → list str → gset str → str) (sp : ChatPromptTemplate)
    (k : stage_name) (v : str) (x : parallel_output) :
  references sp (result_key k) = false →
  synthesis_text mv sp (with_result k v x) = synthesis_text mv sp x
  ∧ ∀ llm inputs,
      final_chain llm mv sp inputs
      = (y ← parallel_map llm mv inputs;
         text ← synthesis_text mv sp y; llm gpt Synthesis text).
Proof.
  unfold references. intros H%bool_decide_eq_false.
  split; [|apply final_chain_synthesis_text].
  unfold synthesis_text, map_keys.
  change (passthrough (with_result k v x)) with (passthrough x).
  destruct (getitem (passthrough x) (lit "niche")) as [n|]; [|done].
  destruct (getitem (passthrough x) (lit "stage")) as [s|]; [|done].
  destruct (getitem (passthrough x) (lit "geo")) as [g|]; [|done].
  destruct (getitem (passthrough x) (lit "founder_profile")) as [f|]; [|done].
  destruct (getitem (passthrough x) (lit "constraints")) as [c|]; [|done].
  destruct (getitem (passthrough x) (lit "goals")) as [gl|]; [|done].
  unfold mbind, result_bind.
  match goal with
  | |- invoke _ _ (list_to_map ?l) = invoke _ _ (list_to_map ?l') =>
    assert (Hkeys : Forall2 (λ a b : str * str,
                               a.1 = b.1 ∧ (a.1 ≠ result_key k → a.2 = b.2))
                      l l')
  end;
  [|apply invoke_agree;
    [intros y Hy; apply (list_to_map_agree (result_key k)); [done|by intros ->]
    |by apply (list_to_map_dom_agree (result_key k))]].
  destruct k; unfold with_result;
    cbn [problem_map market_scan personas solution_shapes gtm_ideas
         tech_notes ops_notes risks_list result_key];
    repeat match goal with
    | |- context [bool_decide (?a = ?b)] =>
      first [ rewrite (bool_decide_eq_true_2 (a = b)) by reflexivity
            | rewrite (bool_decide_eq_false_2 (a = b)) by discriminate ]
    end;
    repeat (constructor; [cbn [fst snd]; split; [reflexivity|]|]);
    try (by constructor);
    intros Hne; first [reflexivity | by destruct Hne].
Qed.

Lemma unnamed_stage_result_is_dropped_witness :
  synthesis_text missing_text fallback_prompt
    (with_result Risks (lit "[]")
       {| problem_map := []; market_scan := []; personas := [];
          solution_shapes := []; gtm_ideas := []; tech_notes := [];
          ops_notes := []; risks_list := lit "none";
          passthrough := to_inputs example_request |})
  = synthesis_text missing_text fallback_prompt
      {| problem_map := []; market_scan := []; personas := [];
         solution_shapes := []; gtm_ideas := []; tech_notes := [];
         ops_notes := []; risks_list := lit "none";
         passthrough := to_inputs example_request |}.
Proof.
  set (x := {| problem_map := []; market_scan := []; personas := [];
               solution_shapes := []; gtm_ideas := []; tech_notes := [];
               ops_notes := []; risks_list := lit "none";
               passthrough := to_inputs example_request |}).
  destruct (unnamed_stage_result_is_dropped missing_text fallback_prompt Risks
              (lit "[]") x) as [H _]; [vm_compute; reflexivity|exact H].
Defined.

(** ** Cleaning only removes *)

Lemma strip_split (s : str) :
  ∃ a b, all_space a ∧ all_space b ∧ s = a ++ strip s ++ b.
Proof.
  destruct (lstrip_split s) as (a & Ha & Hs).
  destruct (rstrip_split (lstrip s)) as (b & Hb & Hl).
  exists a, b. split; [done|]. split; [done|].
  unfold strip. by rewrite <- Hl.
Qed.

(** X10.  The cleaned text is a contiguous piece of the raw text, with no
    whitespace at either end: cleaning never adds or changes a character,
    and a raw text of whitespace only cleans to the empty text. *)
Theorem clean_result_is_trimmed_piece (raw : str) :
  (∃ a b, raw = a ++ clean_result raw ++ b)
  ∧ strip (clean_result raw) = clean_result raw
  ∧ (length (clean_result raw) ≤ length raw)%nat
  ∧ (all_space raw → clean_result raw = []).
Proof.
  assert (Hpiece : ∃ a b, raw = a ++ clean_result raw ++ b).
  { unfold clean_result.
    destruct (strip_split raw) as (a1 & b1 & _ & _ & H1).
    destruct (strip_open_cases (strip raw)) as [(t2 & H2 & E2)|[_ E2]];
      destruct (strip_close_cases (strip_open (strip raw)))
        as [(t3 & H3 & E3)|[_ E3]];
      destruct (strip_split (strip_close (strip_open (strip raw))))
        as (a4 & b4 & _ & _ & H4).
    - exists (a1 ++ fence_open ++ a4), (b4 ++ fence_close ++ b1).
      rewrite H1 at 1. rewrite H2 at 1. rewrite <- E2, H3 at 1.
      rewrite <- E3, H4 at 1. by rewrite <- !app_assoc.
    - exists (a1 ++ fence_open ++ a4), (b4 ++ b1).
      rewrite H1 at 1. rewrite H2 at 1. rewrite <- E2, <- E3 at 1.
      rewrite H4 at 1. by rewrite <- !app_assoc.
    - exists (a1 ++ a4), (b4 ++ fence_close ++ b1).
      rewrite H1 at 1. rewrite <- E2 at 1. rewrite H3 at 1.
      rewrite <- E3, H4 at 1. by rewrite <- !app_assoc.
    - exists (a1 ++ a4), (b4 ++ b1).
      rewrite H1 at 1. rewrite <- E2, <- E3 at 1.
      rewrite H4 at 1. by rewrite <- !app_assoc. }
  split; [done|]. split; [apply strip_idem|]. split.
  - destruct Hpiece as (a & b & H). rewrite H at 2. rewrite !length_app. lia.
  - intros Hws. unfold clean_result.
    assert (strip raw = []) as ->; [|reflexivity].
    unfold strip. by rewrite lstrip_all_space.
Qed.

Lemma clean_result_is_trimmed_piece_witness :
  clean_result (lit "  ") = [].
Proof.
  destruct (clean_result_is_trimmed_piece (lit "  ")) as (_ & _ & _ & H).
  apply H. repeat constructor.
Defined.

(** ** [print_strategy] on what [generate_strategy] may return *)




(** ** The report *)

Lemma py_get_agree (d d' : list (str * JSON)) (key : string) (default : JSON) :
  lit key ∈ report_keys →
  (∀ k, k ∈ report_keys → dict_get k d = dict_get k d') →
  py_get (JDict d) key default = py_get (JDict d') key default.
Proof. intros Hk H. cbn [py_get]. by rewrite (H _ Hk). Qed.

Local Ltac report_key := by apply (bool_decide_unpack _); vm_compute.

(** X12.  What is printed for a dictionary, and whether it raises, depends on
    the twelve keys that are read only: any other top-level entry is
    ignored.  A dictionary with none of them prints the report of the
    empty dictionary, which does not raise. *)
Theorem report_reads_twelve_keys
    (float_truth : str → bool) (d d' : list (str * JSON)) :
  (∀ k, k ∈ report_keys → dict_get k d = dict_get k d') →
  print_strategy_lines float_truth (JDict d)
  = print_strategy_lines float_truth (JDict d')
  ∧ (print_strategy_lines float_truth (JDict [])).2 = Ok ()
  ∧ length (print_strategy_lines float_truth (JDict [])).1 = 26%nat.
Proof.
  intros H. split; [|split; vm_compute; reflexivity].
  unfold print_strategy_lines. cbn [error_in error_of]. unfold dict_contains.
  rewrite (H (lit "error")) by report_key.
  destruct (dict_get (lit "error") d') as [v|]; [reflexivity|].
  unfold print_report, print_personas, print_sections, print_board,
    print_assumptions, show_field, show_field_nl, show_joined.
  rewrite (py_get_agree d d' "one_liner") by (done || report_key).
  rewrite (py_get_agree d d' "problem_statement") by (done || report_key).
  rewrite (py_get_agree d d' "target_personas") by (done || report_key).
  rewrite (py_get_agree d d' "market") by (done || report_key).
  rewrite (py_get_agree d d' "solution") by (done || report_key).
  rewrite (py_get_agree d d' "gtm") by (done || report_key).
  rewrite (py_get_agree d d' "tech") by (done || report_key).
  rewrite (py_get_agree d d' "finance") by (done || report_key).
  rewrite (py_get_agree d d' "metrics") by (done || report_key).
  rewrite (py_get_agree d d' "execution_board") by (done || report_key).
  rewrite (py_get_agree d d' "assumptions") by (done || report_key).
  reflexivity.
Qed.

Lemma report_reads_twelve_keys_witness :
  print_strategy_lines (λ _, true) (JDict [(lit "codename", JString (lit "x"))])
  = print_strategy_lines (λ _, true) (JDict []).
Proof.
  destruct (report_reads_twelve_keys (λ _, true)
              [(lit "codename", JString (lit "x"))] []) as [H _]; [|exact H].
  intros k Hk. unfold report_keys in Hk. cbn [fmap list_fmap] in Hk.
  repeat (apply elem_of_cons in Hk as [->|Hk]); [vm_compute; reflexivity..|].
  by apply elem_of_nil in Hk.
Defined.

(** ** When the report runs to its end *)

Lemma succeeds_bind {A B} (m : W A) (f : A → W B) :
  succeeds (m ≫= f) = match m.2 with Ok a => succeeds (f a) | Raise _ => false end.
Proof.
  destruct m as [out [a|e]]; unfold succeeds, mbind, W_bind; cbn [snd];
    [by destruct (f a)|done].
Qed.

Lemma succeeds_check {A B} (r : result A) (f : A → W B) :
  succeeds (check r ≫= f) = match r with Ok a => succeeds (f a) | Raise _ => false end.
Proof. by rewrite succeeds_bind. Qed.

Lemma succeeds_emit {B} (line : list piece) (k : W B) :
  succeeds (emit line ;; k) = succeeds k.
Proof. by rewrite succeeds_bind. Qed.

Lemma succeeds_seq {B} (m : W ()) (k : W B) :
  succeeds (m ;; k) = succeeds m && succeeds k.
Proof.
  rewrite succeeds_bind. unfold succeeds. by destruct m.2 as [[]|].
Qed.

Lemma succeeds_for_each {A} (items : list A) (body : A → W ()) :
  succeeds (for_each items body) = forallb (λ x, succeeds (body x)) items.
Proof.
  induction items as [|x items IH]; [done|].
  cbn [for_each forallb]. by rewrite succeeds_seq, IH.
Qed.

Lemma forallb_zip_seq {A} (g : A → bool) (l : list A) (a : nat) :
  forallb (λ ip : nat * A, g ip.2) (zip (seq a (length l)) l) = forallb g l.
Proof.
  revert a. induction l as [|x l IH]; intros a; [done|].
  cbn [length seq zip zip_with forallb snd]. by rewrite IH.
Qed.

Lemma join_items_ok (sep : str) (i : nat) (items : list JSON) :
  is_ok (join_items sep i items) = forallb is_str items.
Proof.
  revert i. induction items as [|v items IH]; intros i; [done|].
  destruct v; cbn [join_items forallb is_str]; try done.
  specialize (IH (S i)). unfold mbind, result_bind.
  destruct (join_items sep (S i) items); cbn [is_ok andb] in *; done.
Qed.

Lemma forallb_is_str_chars (s : str) :
  forallb is_str ((λ c, JString [c]) <$> s) = true.
Proof. by induction s. Qed.

Lemma forallb_is_str_keys (d : list (str * JSON)) :
  forallb is_str ((λ kv, JString kv.1) <$> d) = true.
Proof. by induction d. Qed.

Lemma py_join_ok (sep : str) (v : JSON) :
  is_ok (py_join sep v) = joinable v.
Proof.
  destruct v; unfold py_join; cbn [py_iter joinable]; try done.
  - by rewrite join_items_ok, forallb_is_str_chars.
  - by rewrite join_items_ok.
  - by rewrite join_items_ok, forallb_is_str_keys.
Qed.

Lemma succeeds_show_field (label : string) (d : list (str * JSON)) (key : string)
    {B} (k : W B) :
  succeeds (show_field label (JDict d) key ;; k) = succeeds k.
Proof. by rewrite succeeds_seq. Qed.

Lemma succeeds_show_joined (label : string) (d : list (str * JSON)) (key : string) :
  succeeds (show_joined label (JDict d) key)
  = joinable (field_or d key (JList [])).
Proof.
  unfold show_joined. rewrite succeeds_check. cbn [py_get].
  fold (field_or d key (JList [])). rewrite succeeds_check.
  rewrite <- (py_join_ok (lit ", ")).
  by destruct (py_join (lit ", ") (field_or d key (JList []))).
Qed.

Lemma forallb_pointwise {A} (f g : A → bool) (l : list A) :
  (∀ x, f x = g x) → forallb f l = forallb g l.
Proof. intros H. induction l as [|x l IH]; [done|]. cbn. by rewrite H, IH. Qed.

Lemma succeeds_print_personas (d : list (str * JSON)) :
  succeeds (print_personas (JDict d))
  = items_ok persona_ok (field_or d "target_personas" (JList [])).
Proof.
  unfold print_personas. rewrite succeeds_emit, succeeds_check. cbn [py_get].
  fold (field_or d "target_personas" (JList [])). rewrite succeeds_check.
  set (body := λ '(i, persona), _).
  assert (Hbody : ∀ ip : nat * JSON, succeeds (body ip) = persona_ok ip.2).
  { intros [i p]. unfold body. cbn [snd]. rewrite succeeds_check.
    destruct p as [| | | | | |pd]; try done. cbn [py_get persona_ok].
    rewrite succeeds_check, succeeds_emit, succeeds_check.
    fold (field_or pd "primary_jobs" (JList [])).
    rewrite succeeds_check, <- (py_join_ok (lit ", ")).
    destruct (py_join (lit ", ") (field_or pd "primary_jobs" (JList [])));
      [|done].
    rewrite succeeds_emit, succeeds_check.
    fold (field_or pd "top_pains" (JList [])).
    rewrite succeeds_check, <- (py_join_ok (lit ", ")).
    by destruct (py_join (lit ", ") (field_or pd "top_pains" (JList []))). }
  destruct (field_or d "target_personas" (JList [])) as [| | | |s|l|pd];
    cbn [py_iter items_ok]; try done.
  - rewrite succeeds_for_each, (forallb_pointwise _ _ _ Hbody).
    rewrite length_fmap, <- (length_fmap (λ c, JString [c]) s), forallb_zip_seq.
    by destruct s.
  - by rewrite succeeds_for_each, (forallb_pointwise _ _ _ Hbody), forallb_zip_seq.
  - rewrite succeeds_for_each, (forallb_pointwise _ _ _ Hbody).
    rewrite forallb_zip_seq. by destruct pd.
Qed.

Lemma succeeds_print_board (d : list (str * JSON)) :
  succeeds (print_board (JDict d))
  = board_ok (field_or d "execution_board" (JList [])).
Proof.
  unfold print_board. rewrite succeeds_emit, succeeds_check. cbn [py_get].
  fold (field_or d "execution_board" (JList [])). rewrite succeeds_check.
  set (body := λ item : JSON, check (py_get item "id" na) ≫= _).
  assert (Hbody : ∀ item, succeeds (body item) = is_dict item).
  { intros item. unfold body. rewrite succeeds_check.
    by destruct item. }
  destruct (field_or d "execution_board" (JList [])) as [| | | |s|l|bd];
    cbn [py_first_five board_ok]; try done.
  - rewrite succeeds_check. cbn [py_iter].
    rewrite succeeds_for_each, (forallb_pointwise _ _ _ Hbody).
    destruct s as [|c s]; [done|]. by destruct s as [|? [|? [|? [|? ?]]]].
  - rewrite succeeds_check. cbn [py_iter].
    by rewrite succeeds_for_each, (forallb_pointwise _ _ _ Hbody).
Qed.

Lemma succeeds_print_assumptions (float_truth : str → bool)
    (d : list (str * JSON)) :
  succeeds (print_assumptions float_truth (JDict d))
  = assumptions_ok float_truth (field_or d "assumptions" (JList [])).
Proof.
  unfold print_assumptions, assumptions_ok. rewrite succeeds_check. cbn [py_get].
  fold (field_or d "assumptions" (JList [])).
  destruct (py_truth float_truth (field_or d "assumptions" (JList []))); [|done].
  rewrite succeeds_emit, succeeds_check. cbn [negb orb].
  destruct (field_or d "assumptions" (JList [])); cbn [py_iter]; try done;
    rewrite succeeds_for_each; by apply forallb_forall.
Qed.

Lemma succeeds_show_field_any (label : string) (v : JSON) (key : string)
    {B} (k : W B) :
  succeeds (show_field label v key ;; k) = is_dict v && succeeds k.
Proof.
  rewrite succeeds_seq. f_equal. unfold show_field. rewrite succeeds_check.
  by destruct v.
Qed.

Lemma succeeds_show_joined_any (label : string) (v : JSON) (key : string) :
  succeeds (show_joined label v key)
  = match v with
    | JDict d => joinable (field_or d key (JList []))
    | _ => false
    end.
Proof.
  destruct v; try (unfold show_joined; by rewrite succeeds_check).
  apply succeeds_show_joined.
Qed.

Lemma succeeds_finance (finance : JSON) {B} (k : W B) :
  succeeds
    (show_field "   Budget Ceiling: " finance "budget_ceiling";;
     unit_economics ← check (py_get finance "unit_economics" (JDict []));
     show_field "   CAC: " unit_economics "cac";;
     show_field "   LTV: " unit_economics "ltv";;
     k)
  = finance_ok finance && succeeds k.
Proof.
  rewrite succeeds_show_field_any, succeeds_check.
  destruct finance as [| | | | | |fi]; try done.
  cbn [py_get is_dict andb finance_ok].
  fold (field_or fi "unit_economics" (JDict [])).
  rewrite !succeeds_show_field_any.
  by destruct (is_dict (field_or fi "unit_economics" (JDict []))).
Qed.

Lemma succeeds_print_sections (d : list (str * JSON)) :
  succeeds (print_sections (JDict d))
  = is_dict (field_or d "market" (JDict []))
    && solution_ok (field_or d "solution" (JDict []))
    && gtm_ok (field_or d "gtm" (JDict []))
    && tech_ok (field_or d "tech" (JDict []))
    && finance_ok (field_or d "finance" (JDict []))
    && is_dict (field_or d "metrics" (JDict [])).
Proof.
  unfold print_sections.
  rewrite succeeds_check. cbn [py_get]. fold (field_or d "market" (JDict [])).
  rewrite succeeds_emit, !succeeds_show_field_any.
  rewrite succeeds_check. cbn [py_get]. fold (field_or d "solution" (JDict [])).
  rewrite succeeds_emit, !succeeds_seq, !succeeds_show_joined_any.
  rewrite succeeds_check. cbn [py_get]. fold (field_or d "gtm" (JDict [])).
  rewrite succeeds_emit, succeeds_show_field_any, succeeds_seq,
    succeeds_show_joined_any.
  rewrite succeeds_check. cbn [py_get]. fold (field_or d "tech" (JDict [])).
  rewrite succeeds_emit, succeeds_show_field_any, succeeds_seq,
    succeeds_show_joined_any.
  rewrite succeeds_check. cbn [py_get]. fold (field_or d "finance" (JDict [])).
  rewrite succeeds_emit, succeeds_finance.
  rewrite succeeds_check. cbn [py_get]. fold (field_or d "metrics" (JDict [])).
  rewrite succeeds_emit.
  assert (Hm : succeeds (show_field "   North Star: "
                           (field_or d "metrics" (JDict [])) "north_star")
               = is_dict (field_or d "metrics" (JDict []))).
  { unfold show_field. rewrite succeeds_check.
    by destruct (field_or d "metrics" (JDict [])). }
  rewrite Hm.
  destruct (field_or d "market" (JDict [])) as [| | | | | |m]; try done.
  destruct (field_or d "solution" (JDict [])) as [| | | | | |so]; try done.
  cbn [is_dict andb solution_ok].
  destruct (joinable (field_or so "v0_scope" (JList []))); [|done].
  destruct (joinable (field_or so "v1_scope" (JList []))); [|done].
  destruct (joinable (field_or so "v2_scope" (JList []))); [|done].
  destruct (field_or d "gtm" (JDict [])) as [| | | | | |gt]; try done.
  cbn [is_dict andb gtm_ok].
  destruct (joinable (field_or gt "channels" (JList []))); [|done].
  destruct (field_or d "tech" (JDict [])) as [| | | | | |te]; try done.
  cbn [is_dict andb tech_ok].
  by destruct (joinable (field_or te "stack_choices" (JList []))).
Qed.

Lemma succeeds_print_report (float_truth : str → bool) (d : list (str * JSON)) :
  succeeds (print_report float_truth (JDict d)) = report_shape float_truth d.
Proof.
  unfold print_report, report_shape. rewrite !succeeds_emit.
  assert (Hnl : ∀ label key, succeeds (show_field_nl label (JDict d) key) = true).
  { intros label key. unfold show_field_nl. by rewrite succeeds_check. }
  rewrite !succeeds_seq, !Hnl. cbn [andb].
  rewrite succeeds_print_personas, succeeds_print_sections,
    succeeds_print_board, succeeds_print_assumptions.
  by rewrite !andb_assoc.
Qed.

Lemma check_ok {A B} (a : A) (f : A → W B) : check (Ok a) ≫= f = f a.
Proof. unfold mbind, W_bind, check. by destruct (f a). Qed.

(** X13.  For a dictionary without ["error"], the report runs to its end if
    and only if every section that is present has a shape the report can
    walk: personas and board items are dictionaries (only the first five
    board items count), the six section values are dictionaries, every
    joined field is a list of texts (or a text or dictionary), and
    [assumptions] is falsy or can be looped over.  Any other dictionary
    makes [print_strategy] raise part-way through the report. *)
Theorem report_runs_iff_shape
    (float_truth : str → bool) (d : list (str * JSON)) :
  dict_get (lit "error") d = None →
  (print_strategy_lines float_truth (JDict d)).2 = Ok ()
  ↔ report_shape float_truth d = true.
Proof.
  intros Herr. unfold print_strategy_lines. cbn [error_in].
  unfold dict_contains. rewrite Herr.
  rewrite check_ok. rewrite <- succeeds_print_report. unfold succeeds, is_ok.
  by destruct (print_report float_truth (JDict d)).2 as [[]|].
Qed.

Lemma report_runs_iff_shape_witness :
  (print_strategy_lines (λ _, true)
     (JDict [(lit "one_liner", JString (lit "Agents that run a shop"));
             (lit "target_personas",
              JList [JDict [(lit "name", JString (lit "Seller"));
                            (lit "primary_jobs", JList [JString (lit "list items")])]]);
             (lit "market", JDict [(lit "geo", JString (lit "Pakistan"))]);
             (lit "execution_board", JList [JDict [(lit "id", JInt 1)]])])).2
  = Ok ().
Proof.
  apply report_runs_iff_shape; vm_compute; reflexivity.
Defined.

Lemma for_each_lines {A} (items : list A) (body : A → W ()) :
  (∀ x, length (body x).1 ≤ 1)%nat →
  (length (for_each items body).1 ≤ length items)%nat.
Proof.
  intros H. induction items as [|x items IH]; [done|].
  cbn [for_each length]. unfold mbind, W_bind.
  specialize (H x). destruct (body x) as [out [[]|e]]; cbn [fst] in *.
  - destruct (for_each items body) as [out' r]. cbn [fst] in *.
    rewrite length_app. lia.
  - lia.
Qed.

(** X14.  The board shows the first five items only: what is printed for it,
    and whether it raises, is the same as for the list cut to five items,
    so a malformed sixth item is never looked at, and at most six lines
    are printed. *)
Theorem board_shows_first_five_only (d : list (str * JSON)) (l : list JSON) :
  dict_get (lit "execution_board") d = Some (JList l) →
  print_board (JDict d)
  = print_board (JDict [(lit "execution_board", JList (take 5 l))])
  ∧ (length (print_board (JDict d)).1 ≤ 6)%nat.
Proof.
  intros Hd.
  assert (Hget : ∀ l', py_get (JDict [(lit "execution_board", JList l')])
                         "execution_board" (JList []) = Ok (JList l')).
  { intros l'. vm_compute; reflexivity. }
  assert (Hgetd : py_get (JDict d) "execution_board" (JList []) = Ok (JList l)).
  { cbn [py_get]. by rewrite Hd. }
  unfold print_board. rewrite Hget, Hgetd.
  unfold mbind, W_bind, check, emit. cbn [py_first_five py_iter].
  rewrite take_take. change (5 `min` 5)%nat with 5%nat.
  split; [reflexivity|].
  set (body := λ item : JSON, _).
  assert (Hbody : ∀ x, (length (body x).1 ≤ 1)%nat).
  { intros x. unfold body.
    destruct (py_get x "id" na); [|cbn [fst length app]; lia].
    destruct (py_get x "title" na); [|cbn [fst length app]; lia].
    destruct (py_get x "due" na); cbn [fst length app]; lia. }
  pose proof (for_each_lines (take 5 l) body Hbody) as Hlen.
  rewrite length_take in Hlen.
  destruct (for_each (take 5 l) body) as [out r]. cbn [fst app length] in *.
  lia.
Qed.

Lemma board_shows_first_five_only_witness :
  print_board
    (JDict [(lit "execution_board",
             JList [JDict []; JDict []; JDict []; JDict []; JDict []; JNull])])
  = print_board
      (JDict [(lit "execution_board",
               JList [JDict []; JDict []; JDict []; JDict []; JDict []])]).
Proof.
  destruct (board_shows_first_five_only
              [(lit "execution_board",
                JList [JDict []; JDict []; JDict []; JDict []; JDict []; JNull])]
              [JDict []; JDict []; JDict []; JDict []; JDict []; JNull])
    as [H _]; [vm_compute; reflexivity|exact H].
Defined.
